(** * vm.py: a four-instruction assembler and its interpreter

    A shallow embedding of [Assembler.assemble] and [Interpretator.execute]
    of [vm.py], and the properties of the encoding and of the execution
    engine that the specification states about them.

    Conventions of the embedding:
    - a Python [int] is a [Z]; [<<], [>>], [|] and [&] are [Z.shiftl],
      [Z.shiftr], [Z.lor] and [Z.land], which agree with Python's
      unbounded two's-complement semantics (also on negative numbers);
    - a Python [str] is a [string] whose characters are the code points
      0..255; the classification of characters (white space, line
      boundaries, decimal digits) is Python's on that range;
    - a raised exception is a value of type [exn]; a function that can
      raise returns a [result], and the interpreter, whose object survives
      the exception, returns its state next to the optional exception;
    - CPython's configurable limit on the number of digits accepted by
      [int()] and produced by integer formatting is not modelled. *)

From Stdlib Require Import ZArith String Ascii List Bool Lia.
From Stdlib Require Import DecimalString DecimalPos DecimalZ Sorted.
From stdpp Require Import base list strings gmap.
Import ListNotations.

Local Open Scope string_scope.
Local Open Scope Z_scope.

(** ** Python text primitives *)

Module Py.

(** [str.isspace] on one character of the range 0..255: TAB, LF, VT, FF,
    CR, the separators FS GS RS US, the space, NEL and the no-break
    space. *)
Definition isspace (c : ascii) : bool :=
  let n := N_of_ascii c in
  ((9 <=? n) && (n <=? 13) || (28 <=? n) && (n <=? 31)
   || (n =? 32) || (n =? 133) || (n =? 160))%N.

(** The line boundaries of [str.splitlines]: LF, CR, VT, FF, FS, GS, RS
    and NEL (CR LF counts as one boundary). *)
Definition islinebreak (c : ascii) : bool :=
  let n := N_of_ascii c in
  ((10 <=? n) && (n <=? 13) || (28 <=? n) && (n <=? 30) || (n =? 133))%N.

Definition CR : ascii := ascii_of_N 13.
Definition LF : ascii := ascii_of_N 10.

(** [s.splitlines()]: no empty last line after a final boundary. *)
Fixpoint splitlines_from (cur : string) (s : string) : list string :=
  match s with
  | EmptyString => if String.eqb cur "" then [] else [cur]
  | String c s' =>
      if islinebreak c then
        match s' with
        | String c' s'' =>
            if Ascii.eqb c CR && Ascii.eqb c' LF
            then cur :: splitlines_from "" s''
            else cur :: splitlines_from "" s'
        | EmptyString => [cur]
        end
      else splitlines_from (cur ++ String c "") s'
  end.

Definition splitlines (s : string) : list string := splitlines_from "" s.

(** [s.lstrip()], [s.rstrip()], [s.strip()] with no argument. *)
Fixpoint lstrip (s : string) : string :=
  match s with
  | EmptyString => ""
  | String c s' => if isspace c then lstrip s' else s
  end.

Fixpoint rstrip (s : string) : string :=
  match s with
  | EmptyString => ""
  | String c s' =>
      let r := rstrip s' in
      if String.eqb r "" && isspace c then "" else String c r
  end.

Definition strip (s : string) : string := rstrip (lstrip s).

(** [s.startswith(p)]. *)
Definition startswith (p s : string) : bool := String.prefix p s.

(** [s.split()] with no argument: the maximal runs of characters that are
    not white space. *)
Definition starts_token (s : string) : bool :=
  match s with
  | EmptyString => false
  | String c _ => negb (isspace c)
  end.

Fixpoint split (s : string) : list string :=
  match s with
  | EmptyString => []
  | String c s' =>
      if isspace c then split s'
      else if starts_token s' then
        match split s' with
        | t :: ts => String c t :: ts
        | [] => [String c ""]
        end
      else String c "" :: split s'
  end.

(** [int(s)] in base 10: optional surrounding white space, an optional
    sign, then decimal digits, where a single underscore may stand between
    two digits.  [None] is the [ValueError] of a malformed literal. *)
Definition digit_value (c : ascii) : option Z :=
  let n := N_of_ascii c in
  if ((48 <=? n) && (n <=? 57))%N then Some (Z.of_N n - 48) else None.

Definition starts_digit (s : string) : bool :=
  match s with
  | EmptyString => false
  | String c _ => match digit_value c with Some _ => true | None => false end
  end.

(** [digits_from acc after_digit s]: [acc] is the value read so far and
    [after_digit] tells whether the previous character was a digit. *)
Fixpoint digits_from (acc : Z) (after_digit : bool) (s : string) : option Z :=
  match s with
  | EmptyString => if after_digit then Some acc else None
  | String c s' =>
      match digit_value c with
      | Some d => digits_from (10 * acc + d) true s'
      | None =>
          if Ascii.eqb c "_" && after_digit && starts_digit s'
          then digits_from acc false s'
          else None
      end
  end.

Definition int (s : string) : option Z :=
  match strip s with
  | String "+" s' => digits_from 0 false s'
  | String "-" s' => option_map Z.opp (digits_from 0 false s')
  | s' => digits_from 0 false s'
  end.

(** [str(n)] and the f-string field [{n}] for an integer. *)
Definition str (n : Z) : string := NilZero.string_of_int (Z.to_int n).

(** The f-string field [{n:08X}]: upper-case hexadecimal, padded with
    zeros to eight characters, the sign (if any) first and counted. *)
Definition hex_digit (d : Z) : ascii :=
  if d <? 10 then ascii_of_N (Z.to_N (48 + d)) else ascii_of_N (Z.to_N (55 + d)).

Fixpoint hex_from (fuel : nat) (n : Z) (acc : string) : string :=
  match fuel with
  | O => acc
  | S fuel' =>
      let acc' := String (hex_digit (n mod 16)) acc in
      if n / 16 =? 0 then acc' else hex_from fuel' (n / 16) acc'
  end.

Definition hex (n : Z) : string :=
  hex_from (S (Z.to_nat (Z.log2 n))) n "".

Fixpoint zeros (k : nat) : string :=
  match k with O => "" | S k' => String "0" (zeros k') end.

Definition format_08X (n : Z) : string :=
  if n <? 0 then
    let h := hex (- n) in "-" ++ zeros (7 - String.length h) ++ h
  else
    let h := hex n in zeros (8 - String.length h) ++ h.

End Py.

(** ** Exceptions and fallible computations *)

(** The exceptions that the two classes can raise.  [InvalidLiteral tok]
    is the [ValueError] raised by the builtin [int(tok)]: its message is
    built by the interpreter from the token alone. *)
Inductive exn : Type :=
  | ValueError (msg : string)
  | InvalidLiteral (token : string)
  | RuntimeError (msg : string)
  | IndexError.

Inductive result (A : Type) : Type :=
  | Ok (a : A)
  | Raise (e : exn).
Arguments Ok {A} a.
Arguments Raise {A} e.

(** Sequencing: the first exception raised is the one that propagates. *)
#[export] Instance result_bind : MBind result := fun A B k r =>
  match r with
  | Ok a => k a
  | Raise e => Raise e
  end.

(** [int(tok)] as a fallible computation. *)
Definition int_of (tok : string) : result Z :=
  match Py.int tok with
  | Some n => Ok n
  | None => Raise (InvalidLiteral tok)
  end.

(** [l[i]] and [l[i] = v] on a Python list, with negative indices counted
    from the end and [IndexError] outside the list. *)
Definition norm_index {A : Type} (l : list A) (i : Z) : option nat :=
  let n := Z.of_nat (length l) in
  if (0 <=? i) && (i <? n) then Some (Z.to_nat i)
  else if (- n <=? i) && (i <? 0) then Some (Z.to_nat (n + i))
  else None.

Definition getitem {A : Type} (l : list A) (i : Z) : result A :=
  match norm_index l i with
  | Some k => match l !! k with Some x => Ok x | None => Raise IndexError end
  | None => Raise IndexError
  end.

Definition setitem {A : Type} (l : list A) (i : Z) (v : A) : result (list A) :=
  match norm_index l i with
  | Some k => Ok (<[k:=v]> l)
  | None => Raise IndexError
  end.

(** ** The assembler *)

(** One record of the assembly log. *)
Record LogEntry : Type := mkLogEntry {
  line : nat;
  instruction : string;
  binary : string
}.

(** [Assembler.__init__]: the table of mnemonics. *)
Definition instructions : gmap string Z :=
  <["LOAD_CONSTANT" := 0xA4]>
  (<["LOAD_MEMORY" := 0x90]>
  (<["STORE_TO_MEMORY" := 0x1D]>
  (<["SHIFT_LEFT" := 0x4A]> ∅))).

(** The messages of the [ValueError]s raised by [assemble]. *)
Definition msg_unknown_instruction (command : string) (line_no : nat) : string :=
  "Unknown instruction '" ++ command ++ "' on line " ++ Py.str (Z.of_nat line_no).

Definition msg_argument_count (command : string) (line_no : nat) : string :=
  command ++ " requires 2 arguments on line " ++ Py.str (Z.of_nat line_no).

Definition msg_invalid_register (reg : Z) : string :=
  "Invalid register number: " ++ Py.str reg.

Definition msg_invalid_address (address : Z) : string :=
  "Invalid address: " ++ Py.str address.

Definition msg_unhandled_instruction (command : string) (line_no : nat) : string :=
  "Unhandled instruction '" ++ command ++ "' on line " ++ Py.str (Z.of_nat line_no).

(** [(opcode << 24) | (reg << 16) | value], as the assembler writes it
    in each of its four branches. *)
Definition encode (opcode reg value : Z) : Z :=
  Z.lor (Z.lor (Z.shiftl opcode 24) (Z.shiftl reg 16)) value.

(** The two operands of a three-token line; any other token count is the
    argument-count error of the branch. *)
Definition operands (command : string) (line_no : nat) (parts : list string)
  : result (string * string) :=
  match parts with
  | [_; a; b] => Ok (a, b)
  | _ => Raise (ValueError (msg_argument_count command line_no))
  end.

(** The body of the loop of [assemble] for one line: [Ok None] when the
    line is skipped, [Ok (Some (encoded, entry))] when a word and its log
    record are appended. *)
Definition assemble_line (line_no : nat) (line : string)
  : result (option (Z * LogEntry)) :=
  let line := Py.strip line in
  if String.eqb line "" || Py.startswith ";" line then Ok None
  else
    let parts := Py.split line in
    command ← getitem parts 0;
    match instructions !! command with
    | None => Raise (ValueError (msg_unknown_instruction command line_no))
    | Some opcode =>
        if String.eqb command "LOAD_CONSTANT" then
          ab ← operands "LOAD_CONSTANT" line_no parts;
          reg ← int_of (fst ab);
          value ← int_of (snd ab);
          let encoded := encode opcode reg value in
          Ok (Some (encoded, mkLogEntry line_no line (Py.format_08X encoded)))
        else if String.eqb command "STORE_TO_MEMORY" then
          ab ← operands "STORE_TO_MEMORY" line_no parts;
          reg ← int_of (fst ab);
          address ← int_of (snd ab);
          if negb ((0 <=? reg) && (reg <? 32)) then
            Raise (ValueError (msg_invalid_register reg))
          else if negb ((0 <=? address) && (address <? Z.shiftl 1 24)) then
            Raise (ValueError (msg_invalid_address address))
          else
            let encoded := encode opcode reg address in
            Ok (Some (encoded, mkLogEntry line_no line (Py.format_08X encoded)))
        else if String.eqb command "LOAD_MEMORY" then
          ab ← operands "LOAD_MEMORY" line_no parts;
          reg ← int_of (fst ab);
          offset ← int_of (snd ab);
          let encoded := encode opcode reg offset in
          Ok (Some (encoded, mkLogEntry line_no line (Py.format_08X encoded)))
        else if String.eqb command "SHIFT_LEFT" then
          ab ← operands "SHIFT_LEFT" line_no parts;
          reg ← int_of (fst ab);
          address ← int_of (snd ab);
          let encoded := encode opcode reg address in
          Ok (Some (encoded, mkLogEntry line_no line (Py.format_08X encoded)))
        else
          Raise (ValueError (msg_unhandled_instruction command line_no))
    end.

(** The loop of [assemble] over the numbered lines, with the two lists it
    appends to. *)
Fixpoint assemble_lines (line_no : nat) (lines : list string)
    (machine_code : list Z) (log : list LogEntry)
  : result (list Z * list LogEntry) :=
  match lines with
  | [] => Ok (machine_code, log)
  | l :: rest =>
      r ← assemble_line line_no l;
      match r with
      | None => assemble_lines (S line_no) rest machine_code log
      | Some (encoded, entry) =>
          assemble_lines (S line_no) rest (machine_code ++ [encoded]) (log ++ [entry])
      end
  end.

(** [Assembler.assemble]. *)
Definition assemble (source_code : string) : result (list Z * list LogEntry) :=
  assemble_lines 1 (Py.splitlines source_code) [] [].

(** ** The interpreter *)

(** The object state of [Interpretator]. *)
Record Interpretator : Type := mkInterpretator {
  stack : list Z;
  memory : list Z;
  log : list string
}.

(** [Interpretator.__init__]. *)
Definition init : Interpretator :=
  {| stack := []; memory := replicate 256 0; log := [] |}.

Definition set_memory (self : Interpretator) (m : list Z) : Interpretator :=
  {| stack := stack self; memory := m; log := log self |}.

Definition log_append (self : Interpretator) (entry : string) : Interpretator :=
  {| stack := stack self; memory := memory self; log := log self ++ [entry] |}.

(** The three fields of an instruction word, as [execute] extracts them. *)
Definition opcode_of (instruction : Z) : Z := Z.land (Z.shiftr instruction 24) 0xFF.
Definition reg_of (instruction : Z) : Z := Z.land (Z.shiftr instruction 16) 0xFF.
Definition operand_of (instruction : Z) : Z := Z.land instruction 0xFFFF.

(** The messages of the [RuntimeError]s and the lines of the trace. *)
Definition msg_load_memory_failed (address : Z) : string :=
  "LOAD_MEMORY failed: Invalid address " ++ Py.str address ++ ".".

Definition msg_store_to_memory_failed (address : Z) : string :=
  "STORE_TO_MEMORY failed: Invalid address " ++ Py.str address ++ ".".

Definition msg_unknown_opcode (opcode : Z) (index : nat) : string :=
  "Unknown opcode " ++ Py.str opcode ++ " at index " ++ Py.str (Z.of_nat index) ++ ".".

Definition tag (index : nat) : string := "[" ++ Py.str (Z.of_nat index) ++ "] ".

Definition trace_load_constant (index : nat) (value reg : Z) : string :=
  tag index ++ "LOAD_CONSTANT: Loaded " ++ Py.str value
  ++ " into register " ++ Py.str reg ++ ".".

Definition trace_load_memory (index : nat) (value address reg : Z) : string :=
  tag index ++ "LOAD_MEMORY: Loaded value " ++ Py.str value ++ " from memory["
  ++ Py.str address ++ "] into register " ++ Py.str reg ++ ".".

Definition trace_store_to_memory (index : nat) (value address : Z) : string :=
  tag index ++ "STORE_TO_MEMORY: Stored value " ++ Py.str value ++ " to memory["
  ++ Py.str address ++ "].".

Definition trace_shift_left (index : nat) (reg shifted_value : Z) : string :=
  tag index ++ "SHIFT_LEFT: Shifted value in register " ++ Py.str reg
  ++ " to " ++ Py.str shifted_value ++ ".".

(** [address < 0 or address >= len(self.memory)]. *)
Definition invalid_address (self : Interpretator) (address : Z) : bool :=
  (address <? 0) || (address >=? Z.of_nat (length (memory self))).

(** The body of the loop of [execute] for one instruction.  Every [raise]
    and every failing list access of that body comes before its first
    assignment, so an exception leaves the object as it was. *)
Definition execute_instr (index : nat) (instruction : Z) (self : Interpretator)
  : result Interpretator :=
  let opcode := opcode_of instruction in
  if opcode =? 0xA4 then
    let reg := reg_of instruction in
    let value := operand_of instruction in
    m ← setitem (memory self) reg value;
    Ok (log_append (set_memory self m) (trace_load_constant index value reg))
  else if opcode =? 0x90 then
    let reg := reg_of instruction in
    let offset := operand_of instruction in
    cell ← getitem (memory self) reg;
    let address := cell + offset in
    if invalid_address self address then
      Raise (RuntimeError (msg_load_memory_failed address))
    else
      value ← getitem (memory self) address;
      m ← setitem (memory self) reg value;
      Ok (log_append (set_memory self m)
            (trace_load_memory index value address reg))
  else if opcode =? 0x1D then
    let reg := reg_of instruction in
    let address := operand_of instruction in
    value ← getitem (memory self) reg;
    if invalid_address self address then
      Raise (RuntimeError (msg_store_to_memory_failed address))
    else
      m ← setitem (memory self) address value;
      Ok (log_append (set_memory self m)
            (trace_store_to_memory index value address))
  else if opcode =? 0x4A then
    let reg := reg_of instruction in
    value ← getitem (memory self) reg;
    let shifted_value := Z.land (Z.shiftl value 1) 0xFFFFFFFF in
    m ← setitem (memory self) reg shifted_value;
    Ok (log_append (set_memory self m) (trace_shift_left index reg shifted_value))
  else
    Raise (RuntimeError (msg_unknown_opcode opcode index)).

(** The loop of [execute] from position [index] on: the object as the call
    leaves it, and the exception that ended the call, if any. *)
Fixpoint execute_from (index : nat) (machine_code : list Z) (self : Interpretator)
  : Interpretator * option exn :=
  match machine_code with
  | [] => (self, None)
  | instruction :: rest =>
      match execute_instr index instruction self with
      | Ok self' => execute_from (S index) rest self'
      | Raise e => (self, Some e)
      end
  end.

(** [Interpretator.execute]. *)
Definition execute (machine_code : list Z) (self : Interpretator)
  : Interpretator * option exn :=
  execute_from 0 machine_code self.

(** [Interpretator.get_memory_dump]: the dictionary built by the
    comprehension over [enumerate(self.memory)], keys added in order, a
    later key replacing an equal earlier one. *)
Fixpoint memory_dump_from (i : nat) (cells : list Z) (dump : gmap string Z)
  : gmap string Z :=
  match cells with
  | [] => dump
  | value :: rest =>
      memory_dump_from (S i) rest (<["address_" ++ Py.str (Z.of_nat i) := value]> dump)
  end.

Definition get_memory_dump (self : Interpretator) : gmap string Z :=
  memory_dump_from 0 (memory self) ∅.

(** ** The binary file written by [main] *)

(** The two [OverflowError]s of [int.to_bytes]. *)
Inductive OverflowError : Type :=
  | cant_convert_negative
  | int_too_big.

(** The [length] big-endian base-256 digits of [n], each a [Z] in
    [0, 256). *)
Fixpoint be_bytes (length : nat) (n : Z) : list Z :=
  match length with
  | O => []
  | S k => (n / 256 ^ Z.of_nat k) mod 256 :: be_bytes k n
  end.

(** [n.to_bytes(length, byteorder='big')], unsigned. *)
Definition to_bytes (n : Z) (length : nat) : list Z + OverflowError :=
  if n <? 0 then inr cant_convert_negative
  else if 256 ^ Z.of_nat length <=? n then inr int_too_big
  else inl (be_bytes length n).

(** The loop of [main] that writes the binary file: the bytes handed to
    [f.write] so far, and the exception that ended the loop, if any. *)
Fixpoint write_binary (machine_code : list Z) (written : list Z)
  : list Z * option OverflowError :=
  match machine_code with
  | [] => (written, None)
  | instruction :: rest =>
      match to_bytes instruction 4 with
      | inl bytes => write_binary rest (written ++ bytes)
      | inr e => (written, Some e)
      end
  end.

(** ** Auxiliary notions for the statements *)

(** The test by which the loop of [assemble] skips a line. *)
Definition skipped_line (raw : string) : bool :=
  String.eqb (Py.strip raw) "" || Py.startswith ";" (Py.strip raw).

(** The lines that the loop does not skip. *)
Definition kept_lines (lines : list string) : list string :=
  List.filter (fun raw => negb (skipped_line raw)) lines.

(** The unsigned integer that a big-endian byte sequence denotes. *)
Definition be_value (bytes : list Z) : Z :=
  fold_left (fun acc b => 256 * acc + b) bytes 0.

(** The words that a byte stream denotes, four bytes per word, most
    significant byte first; an incomplete last group is dropped. *)
Fixpoint words_of_bytes (bytes : list Z) : list Z :=
  match bytes with
  | b0 :: b1 :: b2 :: b3 :: rest => be_value [b0; b1; b2; b3] :: words_of_bytes rest
  | _ => []
  end.

(** The key of cell [i] in the memory dump. *)
Definition dump_key (i : nat) : string := "address_" ++ Py.str (Z.of_nat i).

(** ** Outcomes of the two loop bodies *)

(** The outcomes of [assemble_line], one constructor per way out of the
    loop body. *)
Inductive line_outcome (line_no : nat) (raw : string)
  : result (option (Z * LogEntry)) -> Prop :=
  | skipped :
      String.eqb (Py.strip raw) "" || Py.startswith ";" (Py.strip raw) = true ->
      line_outcome line_no raw (Ok None)
  | unknown_instruction command rest :
      Py.split (Py.strip raw) = command :: rest ->
      instructions !! command = None ->
      line_outcome line_no raw
        (Raise (ValueError (msg_unknown_instruction command line_no)))
  | argument_count command rest opcode :
      Py.split (Py.strip raw) = command :: rest ->
      instructions !! command = Some opcode ->
      length rest <> 2%nat ->
      line_outcome line_no raw
        (Raise (ValueError (msg_argument_count command line_no)))
  | malformed_register command a b opcode :
      Py.split (Py.strip raw) = [command; a; b] ->
      instructions !! command = Some opcode ->
      Py.int a = None ->
      line_outcome line_no raw (Raise (InvalidLiteral a))
  | malformed_operand command a b opcode reg :
      Py.split (Py.strip raw) = [command; a; b] ->
      instructions !! command = Some opcode ->
      Py.int a = Some reg -> Py.int b = None ->
      line_outcome line_no raw (Raise (InvalidLiteral b))
  | register_range a b reg address :
      Py.split (Py.strip raw) = ["STORE_TO_MEMORY"; a; b] ->
      Py.int a = Some reg -> Py.int b = Some address ->
      ~ (0 <= reg < 32) ->
      line_outcome line_no raw (Raise (ValueError (msg_invalid_register reg)))
  | address_range a b reg address :
      Py.split (Py.strip raw) = ["STORE_TO_MEMORY"; a; b] ->
      Py.int a = Some reg -> Py.int b = Some address ->
      0 <= reg < 32 -> ~ (0 <= address < 2 ^ 24) ->
      line_outcome line_no raw (Raise (ValueError (msg_invalid_address address)))
  | emitted command a b opcode reg value :
      Py.split (Py.strip raw) = [command; a; b] ->
      instructions !! command = Some opcode ->
      Py.int a = Some reg -> Py.int b = Some value ->
      (command = "STORE_TO_MEMORY" -> 0 <= reg < 32 /\ 0 <= value < 2 ^ 24) ->
      line_outcome line_no raw
        (Ok (Some (encode opcode reg value,
                   mkLogEntry line_no (Py.strip raw)
                     (Py.format_08X (encode opcode reg value))))).

(** The cell that a register field or an address designates. *)
Definition cell_at (self : Interpretator) (i : Z) : option Z :=
  memory self !! Z.to_nat i.

(** The object after the assignment [self.memory[i] = v] and the
    [self.log.append(entry)] that follows it. *)
Definition written (self : Interpretator) (i v : Z) (entry : string) : Interpretator :=
  log_append (set_memory self (<[Z.to_nat i:=v]> (memory self))) entry.

(** The outcomes of [execute_instr], one constructor per way out of the
    loop body. *)
Inductive instr_outcome (index : nat) (instruction : Z) (self : Interpretator)
  : result Interpretator -> Prop :=
  | load_constant :
      opcode_of instruction = 0xA4 ->
      reg_of instruction < Z.of_nat (length (memory self)) ->
      instr_outcome index instruction self
        (Ok (written self (reg_of instruction) (operand_of instruction)
               (trace_load_constant index (operand_of instruction)
                  (reg_of instruction))))
  | load_memory cell value :
      opcode_of instruction = 0x90 ->
      cell_at self (reg_of instruction) = Some cell ->
      0 <= cell + operand_of instruction < Z.of_nat (length (memory self)) ->
      cell_at self (cell + operand_of instruction) = Some value ->
      instr_outcome index instruction self
        (Ok (written self (reg_of instruction) value
               (trace_load_memory index value (cell + operand_of instruction)
                  (reg_of instruction))))
  | load_memory_fault cell :
      opcode_of instruction = 0x90 ->
      cell_at self (reg_of instruction) = Some cell ->
      ~ (0 <= cell + operand_of instruction < Z.of_nat (length (memory self))) ->
      instr_outcome index instruction self
        (Raise (RuntimeError
                  (msg_load_memory_failed (cell + operand_of instruction))))
  | store_to_memory value :
      opcode_of instruction = 0x1D ->
      cell_at self (reg_of instruction) = Some value ->
      operand_of instruction < Z.of_nat (length (memory self)) ->
      instr_outcome index instruction self
        (Ok (written self (operand_of instruction) value
               (trace_store_to_memory index value (operand_of instruction))))
  | store_to_memory_fault value :
      opcode_of instruction = 0x1D ->
      cell_at self (reg_of instruction) = Some value ->
      ~ (operand_of instruction < Z.of_nat (length (memory self))) ->
      instr_outcome index instruction self
        (Raise (RuntimeError
                  (msg_store_to_memory_failed (operand_of instruction))))
  | shift_left value :
      opcode_of instruction = 0x4A ->
      cell_at self (reg_of instruction) = Some value ->
      instr_outcome index instruction self
        (Ok (written self (reg_of instruction)
               (Z.land (Z.shiftl value 1) 0xFFFFFFFF)
               (trace_shift_left index (reg_of instruction)
                  (Z.land (Z.shiftl value 1) 0xFFFFFFFF))))
  | unknown_opcode :
      opcode_of instruction <> 0xA4 -> opcode_of instruction <> 0x90 ->
      opcode_of instruction <> 0x1D -> opcode_of instruction <> 0x4A ->
      instr_outcome index instruction self
        (Raise (RuntimeError
                  (msg_unknown_opcode (opcode_of instruction) index)))
  | register_outside_memory :
      Z.of_nat (length (memory self)) <= reg_of instruction ->
      instr_outcome index instruction self (Raise IndexError).

(** Every cell holds an unsigned 32-bit value, and there are 256 cells. *)
Definition cells_in_range (self : Interpretator) : Prop :=
  length (memory self) = 256%nat
  /\ Forall (fun v => 0 <= v < 2 ^ 32) (memory self).

(** * Properties *)

(** ** Lines and tokens *)

Lemma lstrip_head s c s' : Py.lstrip s = String c s' -> Py.isspace c = false.
Proof.
  induction s as [|d s IH]; simpl; [discriminate|].
  destruct (Py.isspace d) eqn:Hd; [exact IH|].
  intros [= -> _]. exact Hd.
Qed.

Lemma rstrip_head s c r : Py.rstrip s = String c r -> exists s', s = String c s'.
Proof.
  destruct s as [|d s]; simpl; [discriminate|].
  destruct (String.eqb (Py.rstrip s) "" && Py.isspace d); [discriminate|].
  intros [= -> _]. eauto.
Qed.

Lemma strip_head s c r : Py.strip s = String c r -> Py.isspace c = false.
Proof.
  unfold Py.strip. intros H.
  destruct (rstrip_head _ _ _ H) as [s' Hs'].
  exact (lstrip_head _ _ _ Hs').
Qed.

(** The first token of a text that starts with a character that is not
    white space starts with that character. *)
Lemma split_head c s t ts :
  Py.isspace c = false -> Py.split (String c s) = t :: ts ->
  exists t', t = String c t'.
Proof.
  simpl. intros ->.
  destruct (Py.starts_token s).
  - destruct (Py.split s); intros [= <- _]; eauto.
  - intros [= <- _]. eauto.
Qed.

(** The four entries of the table. *)
Lemma instructions_lookup command opcode :
  instructions !! command = Some opcode ->
  (command = "LOAD_CONSTANT" /\ opcode = 0xA4)
  \/ (command = "LOAD_MEMORY" /\ opcode = 0x90)
  \/ (command = "STORE_TO_MEMORY" /\ opcode = 0x1D)
  \/ (command = "SHIFT_LEFT" /\ opcode = 0x4A).
Proof.
  unfold instructions.
  rewrite !lookup_insert_Some, lookup_empty.
  intros H. repeat (destruct H as [[<- <-]|[_ H]]; [tauto|]). discriminate.
Qed.

(** A line whose first token is a mnemonic of the table is neither blank
    nor a comment. *)
Lemma mnemonic_line_not_skipped raw command rest opcode :
  Py.split (Py.strip raw) = command :: rest ->
  instructions !! command = Some opcode ->
  String.eqb (Py.strip raw) "" || Py.startswith ";" (Py.strip raw) = false.
Proof.
  intros Hsplit Hop.
  destruct (Py.strip raw) as [|c s] eqn:Hstrip; [discriminate|].
  pose proof (strip_head _ _ _ Hstrip) as Hc.
  destruct (split_head _ _ _ _ Hc Hsplit) as [t' ->].
  unfold Py.startswith.
  change (String.prefix ";" (String c s))
    with (if ascii_dec ";"%char c then String.prefix "" s else false).
  destruct (ascii_dec ";"%char c) as [<-|Hne]; [|reflexivity].
  apply instructions_lookup in Hop.
  destruct Hop as [[? _]|[[? _]|[[? _]|[? _]]]]; discriminate.
Qed.

(** What [assemble_line] does with a three-token line whose mnemonic is in
    the table and whose two operands are integer literals. *)
Lemma assemble_line_operands line_no raw command a b opcode reg value :
  Py.split (Py.strip raw) = [command; a; b] ->
  instructions !! command = Some opcode ->
  Py.int a = Some reg -> Py.int b = Some value ->
  let encoded := encode opcode reg value in
  let emit := Ok (Some (encoded,
                mkLogEntry line_no (Py.strip raw) (Py.format_08X encoded))) in
  assemble_line line_no raw =
    if String.eqb command "STORE_TO_MEMORY" then
      if negb ((0 <=? reg) && (reg <? 32)) then
        Raise (ValueError (msg_invalid_register reg))
      else if negb ((0 <=? value) && (value <? Z.shiftl 1 24)) then
        Raise (ValueError (msg_invalid_address value))
      else emit
    else emit.
Proof.
  intros Hsplit Hop Ha Hb encoded emit. subst emit encoded.
  unfold assemble_line.
  rewrite (mnemonic_line_not_skipped _ _ _ _ Hsplit Hop), Hsplit.
  change (getitem [command; a; b] 0) with (Ok command).
  cbn [mbind result_bind]. rewrite Hop.
  apply instructions_lookup in Hop.
  destruct Hop as [[-> ->]|[[-> ->]|[[-> ->]|[-> ->]]]];
    cbn [String.eqb Ascii.eqb Bool.eqb operands mbind result_bind fst snd];
    unfold int_of; rewrite Ha, Hb; reflexivity.
Qed.

Lemma getitem_head {A : Type} (x : A) (l : list A) : getitem (x :: l) 0 = Ok x.
Proof.
  unfold getitem, norm_index.
  destruct (Z.ltb_spec 0 (Z.of_nat (length (x :: l)))) as [_|H]; [reflexivity|].
  simpl in H. lia.
Qed.

Lemma split_nonempty c s :
  Py.isspace c = false -> exists t ts, Py.split (String c s) = String c t :: ts.
Proof.
  simpl. intros ->.
  destruct (Py.starts_token s); [destruct (Py.split s)|]; eauto.
Qed.

(** Enter the branch of the dispatch that the mnemonic selects, for a line
    that is not skipped and whose tokens are known. *)
Ltac enter_branch Hskip Hsplit Hop :=
  unfold assemble_line; rewrite Hskip, Hsplit, getitem_head;
  cbn [mbind result_bind]; rewrite Hop;
  let Hc := fresh "Hc" in
  pose proof Hop as Hc; apply instructions_lookup in Hc;
  destruct Hc as [[Hc ->]|[[Hc ->]|[[Hc ->]|[Hc ->]]]]; rewrite Hc in *;
  cbn [String.eqb Ascii.eqb Bool.eqb operands mbind result_bind fst snd].

(** [assemble_line] always leaves by one of them: neither the [IndexError]
    of [parts[0]] nor the final [else] of the dispatch can be reached. *)
Lemma assemble_line_outcome line_no raw :
  line_outcome line_no raw (assemble_line line_no raw).
Proof.
  destruct (String.eqb (Py.strip raw) "" || Py.startswith ";" (Py.strip raw))
    eqn:Hskip.
  { unfold assemble_line. rewrite Hskip. now constructor. }
  destruct (Py.strip raw) as [|c s] eqn:Hstrip; [discriminate|].
  destruct (split_nonempty c s (strip_head _ _ _ Hstrip)) as (t & rest & Hsplit).
  rewrite <- Hstrip in Hsplit, Hskip. clear Hstrip.
  set (command := String c t) in *. clearbody command.
  destruct (instructions !! command) as [opcode|] eqn:Hop.
  2:{ unfold assemble_line. rewrite Hskip, Hsplit, getitem_head.
      cbn [mbind result_bind]. rewrite Hop.
      eapply unknown_instruction; eauto. }
  destruct rest as [|a [|b [|x rest]]].
  1,2,4: enter_branch Hskip Hsplit Hop;
    (eapply argument_count; [eassumption|eassumption|simpl; lia]).
  destruct (Py.int a) as [reg|] eqn:Ha.
  2:{ enter_branch Hskip Hsplit Hop;
        unfold int_of; rewrite Ha; cbn [mbind result_bind];
        eapply malformed_register; eassumption. }
  destruct (Py.int b) as [value|] eqn:Hb.
  2:{ enter_branch Hskip Hsplit Hop;
        unfold int_of; rewrite Ha, Hb; cbn [mbind result_bind];
        eapply malformed_operand; eassumption. }
  rewrite (assemble_line_operands _ _ _ _ _ _ _ _ Hsplit Hop Ha Hb).
  destruct (String.eqb_spec command "STORE_TO_MEMORY") as [Hc|Hc].
  - rewrite Hc in Hsplit.
    destruct (Z.leb_spec 0 reg), (Z.ltb_spec reg 32); cbn [andb negb];
      try (eapply register_range; [eassumption..|lia]).
    change (Z.shiftl 1 24) with (2 ^ 24).
    destruct (Z.leb_spec 0 value), (Z.ltb_spec value (2 ^ 24)); cbn [andb negb];
      try (eapply address_range; [eassumption..|lia|lia]).
    rewrite <- Hc in Hsplit. eapply emitted; try eassumption. lia.
  - eapply emitted; try eassumption. intros; contradiction.
Qed.

(** ** The fields of an encoded word *)

Lemma shiftl_land_ones_low a n : 0 <= n -> Z.land (Z.shiftl a n) (Z.ones n) = 0.
Proof.
  intros Hn. rewrite Z.land_ones, Z.shiftl_mul_pow2 by lia.
  apply Z.mod_mul. apply Z.pow_nonzero; lia.
Qed.

(** The operand field of an encoded word holds the low 16 bits of the
    written operand, whatever the opcode and the register are. *)
Lemma operand_of_encode opcode reg value :
  operand_of (encode opcode reg value) = value mod 2 ^ 16.
Proof.
  unfold operand_of, encode. change 0xFFFF with (Z.ones 16).
  rewrite !Z.land_lor_distr_l.
  change (Z.shiftl opcode 24) with (Z.shiftl opcode (8 + 16)).
  rewrite <- (Z.shiftl_shiftl opcode 8 16) by lia.
  rewrite !shiftl_land_ones_low by lia.
  rewrite Z.land_ones by lia. reflexivity.
Qed.

(** The register field holds the written register merged with the bits
    16 and up of the written operand. *)
Lemma reg_of_encode opcode reg value :
  reg_of (encode opcode reg value) = Z.land (Z.lor reg (Z.shiftr value 16)) 0xFF.
Proof.
  unfold reg_of, encode. change 0xFF with (Z.ones 8).
  rewrite !Z.shiftr_lor, !Z.shiftr_shiftl_l by lia.
  change (24 - 16) with 8. change (16 - 16) with 0. rewrite Z.shiftl_0_r.
  rewrite !Z.land_lor_distr_l, shiftl_land_ones_low by lia.
  reflexivity.
Qed.

(** The opcode field holds the opcode merged with the bits 8 and up of the
    written register and the bits 24 and up of the written operand. *)
Lemma opcode_of_encode opcode reg value :
  opcode_of (encode opcode reg value) =
  Z.land (Z.lor (Z.lor opcode (Z.shiftr reg 8)) (Z.shiftr value 24)) 0xFF.
Proof.
  unfold opcode_of, encode.
  rewrite !Z.shiftr_lor, Z.shiftr_shiftl_l, Z.shiftr_shiftl_r by lia.
  change (24 - 24) with 0. change (24 - 16) with 8. rewrite Z.shiftl_0_r.
  reflexivity.
Qed.

Lemma shiftr_small a n : 0 <= n -> 0 <= a < 2 ^ n -> Z.shiftr a n = 0.
Proof. intros Hn Ha. rewrite Z.shiftr_div_pow2 by lia. now apply Z.div_small. Qed.

Lemma land_ones_small a n : 0 <= n -> 0 <= a < 2 ^ n -> Z.land a (Z.ones n) = a.
Proof. intros Hn Ha. rewrite Z.land_ones by lia. now apply Z.mod_small. Qed.

(** Within the widths of the layout the three fields are the written
    values. *)
Lemma fields_of_encode opcode reg value :
  0 <= opcode < 256 -> 0 <= reg < 256 -> 0 <= value < 2 ^ 16 ->
  opcode_of (encode opcode reg value) = opcode
  /\ reg_of (encode opcode reg value) = reg
  /\ operand_of (encode opcode reg value) = value.
Proof.
  intros Ho Hr Hv.
  rewrite opcode_of_encode, reg_of_encode, operand_of_encode.
  rewrite (shiftr_small reg 8), (shiftr_small value 16), (shiftr_small value 24),
    !Z.lor_0_r by lia.
  change 0xFF with (Z.ones 8).
  rewrite !land_ones_small by lia.
  rewrite Z.mod_small by lia. tauto.
Qed.

(** ** The encoded word (C1, C2) *)

(** C1, as stated, fails: the line [LOAD_CONSTANT 0 65536] passes the
    mnemonic, argument-count and integer-parsing checks, and its word is
    0xA4010000, not (0xA4 << 24) | (0 << 16) | (65536 mod 2^16) =
    0xA4000000: the operand is not truncated, its bit 16 lands in the
    register field, which reads 1 where 0 was written. *)
Lemma C1_operand_not_truncated :
  Py.split (Py.strip "LOAD_CONSTANT 0 65536") = ["LOAD_CONSTANT"; "0"; "65536"]
  /\ instructions !! "LOAD_CONSTANT" = Some 0xA4
  /\ Py.int "0" = Some 0 /\ Py.int "65536" = Some 65536
  /\ assemble_line 1 "LOAD_CONSTANT 0 65536"
     = Ok (Some (0xA4010000, mkLogEntry 1 "LOAD_CONSTANT 0 65536" "A4010000"))
  /\ 0xA4010000
     <> Z.lor (Z.lor (Z.shiftl 0xA4 24) (Z.shiftl 0 16)) (65536 mod 2 ^ 16)
  /\ reg_of 0xA4010000 = 1.
Proof. repeat split; try reflexivity. discriminate. Qed.

(** C1, amended.  For a line whose mnemonic is LOAD_CONSTANT, LOAD_MEMORY
    or SHIFT_LEFT and that passes the mnemonic, argument-count and
    integer-parsing checks, the encoded word is
    (opcode << 24) | (register << 16) | operand, with the operand not
    truncated.  The low 16 bits of the word are operand mod 2^16, and the
    register field is ((register | (operand >> 16)) & 0xFF).  When
    0 <= operand < 2^16 the word equals
    (opcode << 24) | (register << 16) | (operand mod 2^16), and then, for
    0 <= register < 256, the register and opcode fields of the word are
    the written register and the opcode. *)
Theorem C1_encoded_word line_no raw command a b opcode reg operand :
  Py.split (Py.strip raw) = [command; a; b] ->
  command = "LOAD_CONSTANT" \/ command = "LOAD_MEMORY" \/ command = "SHIFT_LEFT" ->
  instructions !! command = Some opcode ->
  Py.int a = Some reg -> Py.int b = Some operand ->
  let word := Z.lor (Z.lor (Z.shiftl opcode 24) (Z.shiftl reg 16)) operand in
  assemble_line line_no raw
  = Ok (Some (word, mkLogEntry line_no (Py.strip raw) (Py.format_08X word)))
  /\ operand_of word = operand mod 2 ^ 16
  /\ reg_of word = Z.land (Z.lor reg (Z.shiftr operand 16)) 0xFF
  /\ (0 <= operand < 2 ^ 16 ->
      word = Z.lor (Z.lor (Z.shiftl opcode 24) (Z.shiftl reg 16)) (operand mod 2 ^ 16)
      /\ (0 <= reg < 256 -> reg_of word = reg /\ opcode_of word = opcode)).
Proof.
  intros Hsplit Hcmd Hop Ha Hb word.
  fold (encode opcode reg operand) in word. subst word.
  split; [|split; [apply operand_of_encode|split; [apply reg_of_encode|]]].
  - rewrite (assemble_line_operands _ _ _ _ _ _ _ _ Hsplit Hop Ha Hb).
    destruct Hcmd as [-> | [-> | ->]]; reflexivity.
  - intros Hv. split.
    + rewrite Z.mod_small by lia. reflexivity.
    + intros Hr.
      assert (0 <= opcode < 256) as Ho.
      { apply instructions_lookup in Hop.
        destruct Hop as [[_ ->]|[[_ ->]|[[_ ->]|[_ ->]]]]; lia. }
      pose proof (fields_of_encode opcode reg operand Ho Hr Hv). tauto.
Qed.

Lemma C1_encoded_word_witness :
  assemble_line 7 "  LOAD_MEMORY 3 40 "
  = Ok (Some (0x90030028, mkLogEntry 7 "LOAD_MEMORY 3 40" "90030028"))
  /\ operand_of 0x90030028 = 40 /\ reg_of 0x90030028 = 3.
Proof.
  destruct (C1_encoded_word 7 "  LOAD_MEMORY 3 40 " "LOAD_MEMORY" "3" "40" 0x90 3 40)
    as (H1 & H2 & H3 & _);
    [reflexivity | right; left; reflexivity | reflexivity | reflexivity
    | reflexivity | ].
  split; [exact H1 | split; [exact H2 | exact H3]].
Defined.

(** C2, as stated, fails.  [STORE_TO_MEMORY 0 65536] assembles without
    error (65536 < 2^24) to 0x1D010000, which decodes to register 1 and
    operand 0 where register 0 and operand 65536 were written.
    [LOAD_CONSTANT 256 7] assembles to 0xA5000007, which decodes to opcode
    0xA5 and register 0 where opcode 0xA4 and register 256 were written.
    [LOAD_MEMORY 1 -1] assembles to -1, which decodes to opcode 0xFF. *)
Lemma C2_fields_not_reproduced :
  (assemble_line 1 "STORE_TO_MEMORY 0 65536"
   = Ok (Some (0x1D010000, mkLogEntry 1 "STORE_TO_MEMORY 0 65536" "1D010000"))
   /\ Py.int "0" = Some 0 /\ Py.int "65536" = Some 65536
   /\ reg_of 0x1D010000 = 1 /\ operand_of 0x1D010000 = 0)
  /\ (assemble_line 1 "LOAD_CONSTANT 256 7"
      = Ok (Some (0xA5000007, mkLogEntry 1 "LOAD_CONSTANT 256 7" "A5000007"))
      /\ Py.int "256" = Some 256
      /\ opcode_of 0xA5000007 = 0xA5 /\ reg_of 0xA5000007 = 0)
  /\ (assemble_line 1 "LOAD_MEMORY 1 -1"
      = Ok (Some (-1, mkLogEntry 1 "LOAD_MEMORY 1 -1" "-0000001"))
      /\ Py.int "-1" = Some (-1)
      /\ opcode_of (-1) = 0xFF /\ reg_of (-1) = 0xFF /\ operand_of (-1) = 0xFFFF).
Proof. repeat split; reflexivity. Qed.

(** C2, amended.  For every source line that assembles without error,
    whatever its mnemonic, the operand field (bits 15-0) of the produced
    word is the written operand modulo 2^16; and when the written register
    is in [0, 256) and the written operand in [0, 2^16), decoding the word
    reproduces the mnemonic's opcode, the written register and the written
    operand. *)
Theorem C2_decode_roundtrip line_no raw word entry :
  assemble_line line_no raw = Ok (Some (word, entry)) ->
  exists command a b opcode reg operand,
    Py.split (Py.strip raw) = [command; a; b]
    /\ instructions !! command = Some opcode
    /\ Py.int a = Some reg /\ Py.int b = Some operand
    /\ operand_of word = operand mod 2 ^ 16
    /\ (0 <= reg < 256 -> 0 <= operand < 2 ^ 16 ->
        opcode_of word = opcode /\ reg_of word = reg /\ operand_of word = operand).
Proof.
  intros H. pose proof (assemble_line_outcome line_no raw) as Hout.
  rewrite H in Hout. inversion Hout as [| | | | | | |command a b opcode reg value
    Hsplit Hop Ha Hb _]; subst.
  exists command, a, b, opcode, reg, value.
  repeat (split; [assumption|]).
  split; [apply operand_of_encode|].
  intros Hr Hv. apply fields_of_encode; try assumption.
  apply instructions_lookup in Hop.
  destruct Hop as [[_ ->]|[[_ ->]|[[_ ->]|[_ ->]]]]; lia.
Qed.

Lemma C2_decode_roundtrip_witness :
  exists command a b opcode reg operand,
    Py.split (Py.strip "SHIFT_LEFT 9 0") = [command; a; b]
    /\ instructions !! command = Some opcode
    /\ Py.int a = Some reg /\ Py.int b = Some operand
    /\ operand_of 0x4A090000 = operand mod 2 ^ 16
    /\ (0 <= reg < 256 -> 0 <= operand < 2 ^ 16 ->
        opcode_of 0x4A090000 = opcode /\ reg_of 0x4A090000 = reg
        /\ operand_of 0x4A090000 = operand).
Proof.
  apply (C2_decode_roundtrip 4 "SHIFT_LEFT 9 0" 0x4A090000
           (mkLogEntry 4 "SHIFT_LEFT 9 0" "4A090000")).
  reflexivity.
Defined.

(** ** Assembly-time errors (C4, C7) *)

(** C4.  A STORE_TO_MEMORY line whose register is outside [0, 32) or whose
    address is outside [0, 2^24) fails with the range error that names the
    offending value (the register when it is out of range, the address
    otherwise); a LOAD_CONSTANT, LOAD_MEMORY or SHIFT_LEFT line with the
    same two operand tokens meets no range check and assembles. *)
Theorem C4_range_check_only_for_store
    line_no raw line_no' raw' command' a b reg operand :
  Py.split (Py.strip raw) = ["STORE_TO_MEMORY"; a; b] ->
  Py.split (Py.strip raw') = [command'; a; b] ->
  command' = "LOAD_CONSTANT" \/ command' = "LOAD_MEMORY" \/ command' = "SHIFT_LEFT" ->
  Py.int a = Some reg -> Py.int b = Some operand ->
  ~ (0 <= reg < 32) \/ ~ (0 <= operand < 2 ^ 24) ->
  assemble_line line_no raw
  = Raise (ValueError
      (if decide (0 <= reg < 32)
       then "Invalid address: " ++ Py.str operand
       else "Invalid register number: " ++ Py.str reg))
  /\ exists opcode' word,
       instructions !! command' = Some opcode'
       /\ word = Z.lor (Z.lor (Z.shiftl opcode' 24) (Z.shiftl reg 16)) operand
       /\ assemble_line line_no' raw'
          = Ok (Some (word,
                  mkLogEntry line_no' (Py.strip raw') (Py.format_08X word))).
Proof.
  intros Hsplit Hsplit' Hcmd Ha Hb Hrange. split.
  - rewrite (assemble_line_operands _ _ _ _ _ 0x1D _ _ Hsplit eq_refl Ha Hb).
    cbn [String.eqb Ascii.eqb Bool.eqb]. change (Z.shiftl 1 24) with (2 ^ 24).
    destruct (decide (0 <= reg < 32)) as [Hr|Hr].
    + destruct (Z.leb_spec 0 reg), (Z.ltb_spec reg 32); try lia.
      destruct (Z.leb_spec 0 operand), (Z.ltb_spec operand (2 ^ 24));
        try reflexivity.
      lia.
    + destruct (Z.leb_spec 0 reg), (Z.ltb_spec reg 32); try reflexivity. lia.
  - assert (exists opcode', instructions !! command' = Some opcode') as [opcode' Hop].
    { destruct Hcmd as [-> | [-> | ->]]; eexists; reflexivity. }
    exists opcode', (encode opcode' reg operand).
    split; [exact Hop|split; [reflexivity|]].
    rewrite (assemble_line_operands _ _ _ _ _ _ _ _ Hsplit' Hop Ha Hb).
    destruct Hcmd as [-> | [-> | ->]]; reflexivity.
Qed.

Lemma C4_range_check_only_for_store_witness :
  assemble_line 2 "STORE_TO_MEMORY 32 16777216"
  = Raise (ValueError "Invalid register number: 32")
  /\ exists opcode' word,
       instructions !! "LOAD_CONSTANT" = Some opcode'
       /\ word = Z.lor (Z.lor (Z.shiftl opcode' 24) (Z.shiftl 32 16)) 16777216
       /\ assemble_line 5 "LOAD_CONSTANT 32 16777216"
          = Ok (Some (word,
                  mkLogEntry 5 "LOAD_CONSTANT 32 16777216" (Py.format_08X word))).
Proof.
  apply (C4_range_check_only_for_store
           2 "STORE_TO_MEMORY 32 16777216" 5 "LOAD_CONSTANT 32 16777216"
           "LOAD_CONSTANT" "32" "16777216" 32 16777216);
    [reflexivity | reflexivity | left; reflexivity | reflexivity | reflexivity
    | left; lia].
Defined.

(** The line at which [assemble_lines] raises: the lines before it are
    skipped or encoded, and the exception is the one of that line. *)
Lemma assemble_lines_Raise lines : forall line_no machine_code log e,
  assemble_lines line_no lines machine_code log = Raise e ->
  exists k raw,
    lines !! k = Some raw
    /\ assemble_line (line_no + k) raw = Raise e
    /\ forall j raw', (j < k)%nat -> lines !! j = Some raw' ->
         exists r, assemble_line (line_no + j) raw' = Ok r.
Proof.
  induction lines as [|l rest IH]; intros line_no machine_code log e;
    cbn [assemble_lines]; [discriminate|].
  destruct (assemble_line line_no l) as [r|e'] eqn:Hl; cbn [mbind result_bind].
  - intros H.
    assert (exists mc lg, assemble_lines (S line_no) rest mc lg = Raise e)
      as (mc & lg & H').
    { destruct r as [[encoded entry]|]; eauto. }
    destruct (IH _ _ _ _ H') as (k & raw & Hk & Hraise & Hbefore).
    exists (S k), raw. split; [exact Hk|]. split.
    + replace (line_no + S k)%nat with (S line_no + k)%nat by lia. exact Hraise.
    + intros [|j] raw' Hj Hraw'.
      * injection Hraw' as <-. rewrite Nat.add_0_r. eauto.
      * replace (line_no + S j)%nat with (S line_no + j)%nat by lia.
        apply Hbefore; [lia|exact Hraw'].
  - intros [= <-]. exists 0%nat, l. split; [reflexivity|]. split.
    + rewrite Nat.add_0_r. exact Hl.
    + intros j raw' Hj. lia.
Qed.

(** C7, as stated, fails.  The same line gives the same exception at line
    1 and at line 2 when the error is a range error or a malformed
    operand, so no line number can be read off these exceptions. *)
Lemma C7_no_line_number_in_range_and_literal_errors :
  let store := "STORE_TO_MEMORY 32 0" in
  let literal := "LOAD_CONSTANT 0 x" in
  let address := "STORE_TO_MEMORY 0 -1" in
  (assemble store = Raise (ValueError "Invalid register number: 32")
   /\ assemble (String Py.LF store)
      = Raise (ValueError "Invalid register number: 32"))
  /\ (assemble address = Raise (ValueError "Invalid address: -1")
      /\ assemble (String Py.LF address)
         = Raise (ValueError "Invalid address: -1"))
  /\ (assemble literal = Raise (InvalidLiteral "x")
      /\ assemble (String Py.LF literal) = Raise (InvalidLiteral "x"))
  /\ ~ (exists carried : exn -> nat, forall line_no raw e,
          assemble_line line_no raw = Raise e -> carried e = line_no).
Proof.
  cbv zeta. repeat split; try reflexivity.
  intros [carried H].
  pose proof (H 1%nat "STORE_TO_MEMORY 32 0" _ eq_refl) as H1.
  pose proof (H 2%nat "STORE_TO_MEMORY 32 0" _ eq_refl) as H2.
  cbv beta in H1, H2. congruence.
Qed.

(** C7, amended.  When [assemble] raises, the exception is the one of the
    first line that fails, say line [n] (counted from 1), and it is one of
    five, each tied to the tokens of that line: an unknown-instruction
    error that names the first token of the line, not in the table, and
    ends in "on line n"; an argument-count error that names the mnemonic
    of the line, which does not have exactly two operands, and ends in
    "on line n"; the [ValueError] of [int()] on the first of the two
    operand tokens of the line that is not an integer literal; for a
    STORE_TO_MEMORY line, a range error whose message names the register
    parsed from the line, outside [0, 32); or, the register being in
    range, a range error whose message names the address parsed from the
    line, outside [0, 2^24).  The first two carry the line number. *)
Theorem C7_assembly_errors source_code e :
  assemble source_code = Raise e ->
  exists n raw,
    (1 <= n)%nat
    /\ Py.splitlines source_code !! (n - 1)%nat = Some raw
    /\ assemble_line n raw = Raise e
    /\ (forall m raw', (1 <= m < n)%nat ->
          Py.splitlines source_code !! (m - 1)%nat = Some raw' ->
          exists r, assemble_line m raw' = Ok r)
    /\ ((exists command rest,
           Py.split (Py.strip raw) = command :: rest
           /\ instructions !! command = None
           /\ e = ValueError ("Unknown instruction '" ++ command ++ "' on line "
                              ++ Py.str (Z.of_nat n)))
        \/ (exists command rest opcode,
              Py.split (Py.strip raw) = command :: rest
              /\ instructions !! command = Some opcode
              /\ length rest <> 2%nat
              /\ e = ValueError (command ++ " requires 2 arguments on line "
                                 ++ Py.str (Z.of_nat n)))
        \/ (exists command a b opcode,
              Py.split (Py.strip raw) = [command; a; b]
              /\ instructions !! command = Some opcode
              /\ ((Py.int a = None /\ e = InvalidLiteral a)
                  \/ (exists reg, Py.int a = Some reg
                        /\ Py.int b = None /\ e = InvalidLiteral b)))
        \/ (exists a b reg address,
              Py.split (Py.strip raw) = ["STORE_TO_MEMORY"; a; b]
              /\ Py.int a = Some reg /\ Py.int b = Some address
              /\ ~ (0 <= reg < 32)
              /\ e = ValueError ("Invalid register number: " ++ Py.str reg))
        \/ (exists a b reg address,
              Py.split (Py.strip raw) = ["STORE_TO_MEMORY"; a; b]
              /\ Py.int a = Some reg /\ Py.int b = Some address
              /\ 0 <= reg < 32 /\ ~ (0 <= address < 2 ^ 24)
              /\ e = ValueError ("Invalid address: " ++ Py.str address))).
Proof.
  unfold assemble. intros H.
  destruct (assemble_lines_Raise _ _ _ _ _ H) as (k & raw & Hk & Hraise & Hbefore).
  exists (1 + k)%nat, raw.
  split; [lia|]. split; [replace (1 + k - 1)%nat with k by lia; exact Hk|].
  split; [exact Hraise|]. split.
  { intros m raw' Hm Hraw'.
    replace m with (1 + (m - 1))%nat by lia. apply Hbefore; [lia|exact Hraw']. }
  pose proof (assemble_line_outcome (1 + k) raw) as Hout.
  rewrite Hraise in Hout.
  inversion Hout as
    [|command rest Hsplit Hop
     |command rest opcode Hsplit Hop Hlen
     |command a b opcode Hsplit Hop Ha
     |command a b opcode reg Hsplit Hop Ha Hb
     |a b reg address Hsplit Ha Hb Hr
     |a b reg address Hsplit Ha Hb Hr Hv|]; subst.
  - left. exists command, rest. auto.
  - right; left. exists command, rest, opcode. auto.
  - right; right; left. exists command, a, b, opcode.
    split; [exact Hsplit|]. split; [exact Hop|]. left. auto.
  - right; right; left. exists command, a, b, opcode.
    split; [exact Hsplit|]. split; [exact Hop|]. right. exists reg. auto.
  - right; right; right; left. exists a, b, reg, address. auto 6.
  - right; right; right; right. exists a, b, reg, address. auto 7.
Qed.

Lemma C7_assembly_errors_witness :
  exists n raw,
    Py.splitlines ("; comment" ++ String Py.LF "JUMP 1 2") !! (n - 1)%nat = Some raw
    /\ assemble_line n raw
       = Raise (ValueError "Unknown instruction 'JUMP' on line 2").
Proof.
  destruct (C7_assembly_errors ("; comment" ++ String Py.LF "JUMP 1 2")
              (ValueError "Unknown instruction 'JUMP' on line 2") eq_refl)
    as (n & raw & _ & Hline & Hraise & _).
  exists n, raw. split; [exact Hline | exact Hraise].
Defined.

(** ** One instruction of the interpreter *)

Lemma reg_of_range instruction : 0 <= reg_of instruction < 256.
Proof.
  unfold reg_of. change 0xFF with (Z.ones 8). rewrite Z.land_ones by lia.
  apply Z.mod_pos_bound. lia.
Qed.

Lemma operand_of_range instruction : 0 <= operand_of instruction < 2 ^ 16.
Proof.
  unfold operand_of. change 0xFFFF with (Z.ones 16). rewrite Z.land_ones by lia.
  apply Z.mod_pos_bound. lia.
Qed.

Lemma norm_index_in_range {A : Type} (l : list A) i :
  0 <= i < Z.of_nat (length l) -> norm_index l i = Some (Z.to_nat i).
Proof.
  intros H. unfold norm_index.
  destruct (Z.leb_spec 0 i), (Z.ltb_spec i (Z.of_nat (length l)));
    try lia; reflexivity.
Qed.

Lemma norm_index_above {A : Type} (l : list A) i :
  Z.of_nat (length l) <= i -> norm_index l i = None.
Proof.
  intros H. unfold norm_index.
  destruct (Z.leb_spec 0 i), (Z.ltb_spec i (Z.of_nat (length l))),
    (Z.leb_spec (- Z.of_nat (length l)) i), (Z.ltb_spec i 0);
    try lia; reflexivity.
Qed.

Lemma getitem_in_range {A : Type} (l : list A) i :
  0 <= i < Z.of_nat (length l) ->
  exists x, l !! Z.to_nat i = Some x /\ getitem l i = Ok x.
Proof.
  intros H. unfold getitem. rewrite norm_index_in_range by exact H.
  destruct (lookup_lt_is_Some_2 l (Z.to_nat i)) as [x Hx]; [lia|].
  exists x. rewrite Hx. tauto.
Qed.

Lemma getitem_above {A : Type} (l : list A) i :
  Z.of_nat (length l) <= i -> getitem l i = Raise IndexError.
Proof. intros H. unfold getitem. now rewrite norm_index_above. Qed.

Lemma setitem_in_range {A : Type} (l : list A) i v :
  0 <= i < Z.of_nat (length l) -> setitem l i v = Ok (<[Z.to_nat i:=v]> l).
Proof. intros H. unfold setitem. now rewrite norm_index_in_range. Qed.

Lemma setitem_above {A : Type} (l : list A) i v :
  Z.of_nat (length l) <= i -> setitem l i v = Raise IndexError.
Proof. intros H. unfold setitem. now rewrite norm_index_above. Qed.

Lemma invalid_address_spec self address :
  invalid_address self address = true
  <-> ~ (0 <= address < Z.of_nat (length (memory self))).
Proof.
  unfold invalid_address.
  destruct (Z.ltb_spec address 0), (Z.geb_spec address (Z.of_nat (length (memory self))));
    cbn [orb]; split; intros; try lia; try discriminate; reflexivity.
Qed.

Lemma execute_instr_outcome index instruction self :
  instr_outcome index instruction self (execute_instr index instruction self).
Proof.
  pose proof (reg_of_range instruction) as Hreg.
  pose proof (operand_of_range instruction) as Hopd.
  destruct (Z.le_gt_cases (Z.of_nat (length (memory self))) (reg_of instruction))
    as [Hout|Hin].
  { (* the register field lies outside the memory *)
    unfold execute_instr.
    rewrite (getitem_above _ _ Hout), (setitem_above _ _ _ Hout).
    cbn [mbind result_bind].
    repeat match goal with
           | |- context [?x =? ?y] => destruct (Z.eqb_spec x y)
           end;
      try (now apply register_outside_memory).
    now apply unknown_opcode. }
  destruct (getitem_in_range (memory self) (reg_of instruction)) as (cell & Hcell & Hget);
    [lia|].
  unfold execute_instr.
  rewrite Hget. cbn [mbind result_bind].
  destruct (Z.eqb_spec (opcode_of instruction) 0xA4) as [H1|H1].
  { rewrite setitem_in_range by lia. now apply load_constant. }
  destruct (Z.eqb_spec (opcode_of instruction) 0x90) as [H2|H2].
  { destruct (invalid_address self (cell + operand_of instruction)) eqn:Hinv.
    - apply invalid_address_spec in Hinv.
      now apply (load_memory_fault _ _ _ cell).
    - assert (0 <= cell + operand_of instruction < Z.of_nat (length (memory self)))
        as Hr.
      { destruct (decide (0 <= cell + operand_of instruction
                          < Z.of_nat (length (memory self)))) as [?|Hn];
          [assumption|].
        apply invalid_address_spec in Hn. congruence. }
      destruct (getitem_in_range (memory self) _ Hr) as (value & Hvalue & ->).
      cbn [mbind result_bind]. rewrite setitem_in_range by lia.
      cbn [mbind result_bind]. now apply (load_memory _ _ _ cell value). }
  destruct (Z.eqb_spec (opcode_of instruction) 0x1D) as [H3|H3].
  { destruct (invalid_address self (operand_of instruction)) eqn:Hinv.
    - apply invalid_address_spec in Hinv.
      apply (store_to_memory_fault _ _ _ cell); [assumption..|lia].
    - assert (operand_of instruction < Z.of_nat (length (memory self))) as Hr.
      { destruct (decide (0 <= operand_of instruction
                          < Z.of_nat (length (memory self)))) as [?|Hn]; [lia|].
        apply invalid_address_spec in Hn. congruence. }
      rewrite setitem_in_range by lia. cbn [mbind result_bind].
      now apply (store_to_memory _ _ _ cell). }
  destruct (Z.eqb_spec (opcode_of instruction) 0x4A) as [H4|H4].
  { rewrite setitem_in_range by lia. now apply (shift_left _ _ _ cell). }
  now apply unknown_opcode.
Qed.

(** ** SHIFT_LEFT (C5) *)

(** C5.  On the 256-cell memory, a SHIFT_LEFT instruction on register r
    never faults: it replaces cell r by (cell[r] << 1) mod 2^32, appends
    its trace line, and leaves 0 in the cell when it held 0x80000000. *)
Theorem C5_shift_left_wraps index instruction self :
  opcode_of instruction = 0x4A ->
  length (memory self) = 256%nat ->
  exists value self',
    memory self !! Z.to_nat (reg_of instruction) = Some value
    /\ execute_instr index instruction self = Ok self'
    /\ memory self'
       = <[Z.to_nat (reg_of instruction) := Z.shiftl value 1 mod 2 ^ 32]> (memory self)
    /\ memory self' !! Z.to_nat (reg_of instruction)
       = Some (Z.shiftl value 1 mod 2 ^ 32)
    /\ (value = 0x80000000 -> memory self' !! Z.to_nat (reg_of instruction) = Some 0).
Proof.
  intros Hop Hlen.
  pose proof (reg_of_range instruction) as Hreg.
  pose proof (execute_instr_outcome index instruction self) as Hout.
  inversion Hout as [| | | | |value H1 Hcell Heq| |]; try congruence; try lia.
  clear Hout. symmetry in Heq.
  exists value, (written self (reg_of instruction)
                   (Z.land (Z.shiftl value 1) 0xFFFFFFFF)
                   (trace_shift_left index (reg_of instruction)
                      (Z.land (Z.shiftl value 1) 0xFFFFFFFF))).
  revert Heq.
  change 0xFFFFFFFF with (Z.ones 32). rewrite Z.land_ones by lia.
  assert (memory (written self (reg_of instruction) (Z.shiftl value 1 mod 2 ^ 32)
                    (trace_shift_left index (reg_of instruction)
                       (Z.shiftl value 1 mod 2 ^ 32)))
              !! Z.to_nat (reg_of instruction)
          = Some (Z.shiftl value 1 mod 2 ^ 32)) as Hnew.
  { cbn [written log_append set_memory memory].
    apply list_lookup_insert_eq. lia. }
  intros Heq. repeat split; try assumption; try reflexivity.
  intros ->. exact Hnew.
Qed.

Lemma C5_shift_left_wraps_witness :
  exists value self',
    memory (set_memory init (<[7%nat:=0x80000000]> (memory init)))
      !! Z.to_nat (reg_of 0x4A070000) = Some value
    /\ execute_instr 3 0x4A070000
         (set_memory init (<[7%nat:=0x80000000]> (memory init))) = Ok self'
    /\ memory self'
       = <[Z.to_nat (reg_of 0x4A070000) := Z.shiftl value 1 mod 2 ^ 32]>
           (memory (set_memory init (<[7%nat:=0x80000000]> (memory init))))
    /\ memory self' !! Z.to_nat (reg_of 0x4A070000)
       = Some (Z.shiftl value 1 mod 2 ^ 32)
    /\ (value = 0x80000000 -> memory self' !! Z.to_nat (reg_of 0x4A070000) = Some 0).
Proof.
  apply (C5_shift_left_wraps 3 0x4A070000
           (set_memory init (<[7%nat:=0x80000000]> (memory init))));
    reflexivity.
Defined.

Example shift_left_0x80000000 :
  memory <$> (match execute_instr 0 0x4A070000
                      (set_memory init (<[7%nat:=0x80000000]> (memory init))) with
              | Ok self' => Some self'
              | Raise _ => None
              end)
  = Some (replicate 256 0).
Proof. reflexivity. Qed.

(** ** The effect of one instruction on the memory (C9, C10) *)

(** What an instruction that completes does to the object: one cell is
    assigned, one trace line is appended, the stack is not touched. *)
Lemma execute_instr_Ok index instruction self self' :
  execute_instr index instruction self = Ok self' ->
  exists i v entry,
    self' = written self i v entry
    /\ 0 <= i < Z.of_nat (length (memory self))
    /\ i = (if opcode_of instruction =? 0x1D
            then operand_of instruction else reg_of instruction)
    /\ (v = operand_of instruction
        \/ (exists j, memory self !! j = Some v)
        \/ (exists u, v = Z.land (Z.shiftl u 1) 0xFFFFFFFF)).
Proof.
  intros H.
  pose proof (reg_of_range instruction) as Hreg.
  pose proof (operand_of_range instruction) as Hopd.
  pose proof (execute_instr_outcome index instruction self) as Hout.
  rewrite H in Hout.
  inversion Hout as [H1 Hr Heq|cell value H1 Hc Hr Hv Heq| |value H1 Hc Hr Heq|
                     |value H1 Hc Heq| |]; subst self'; clear Hout H;
    do 3 eexists; (split; [reflexivity|]); rewrite H1; cbn [Z.eqb Pos.eqb];
    (split; [|split; [reflexivity|]]); eauto; try lia.
  all: unfold cell_at in Hc; apply lookup_lt_Some in Hc; lia.
Qed.

(** C9.  An instruction that completes assigns one cell and leaves every
    other cell as it was: the cell of the operand field for
    STORE_TO_MEMORY, the cell of the register field for LOAD_CONSTANT,
    LOAD_MEMORY and SHIFT_LEFT.  The number of cells does not change. *)
Theorem C9_one_cell_written index instruction self self' :
  execute_instr index instruction self = Ok self' ->
  let target := if opcode_of instruction =? 0x1D
                then operand_of instruction else reg_of instruction in
  length (memory self') = length (memory self)
  /\ (Z.to_nat target < length (memory self))%nat
  /\ forall j, j <> Z.to_nat target -> memory self' !! j = memory self !! j.
Proof.
  intros H target.
  destruct (execute_instr_Ok _ _ _ _ H) as (i & v & entry & -> & Hi & Heq & _).
  fold target in Heq. subst i.
  cbn [written log_append set_memory memory].
  split; [apply length_insert|]. split; [lia|].
  intros j Hj. apply list_lookup_insert_ne. congruence.
Qed.

Lemma C9_one_cell_written_witness :
  let self' := written init 10 0 (trace_store_to_memory 0 0 10) in
  let target := if opcode_of 0x1D00000A =? 0x1D
                then operand_of 0x1D00000A else reg_of 0x1D00000A in
  length (memory self') = length (memory init)
  /\ (Z.to_nat target < length (memory init))%nat
  /\ forall j, j <> Z.to_nat target -> memory self' !! j = memory init !! j.
Proof.
  apply (C9_one_cell_written 0 0x1D00000A init). reflexivity.
Defined.

Lemma init_cells_in_range : cells_in_range init.
Proof.
  split; [reflexivity|]. unfold init, memory.
  apply Forall_replicate. lia.
Qed.

Lemma execute_instr_cells_in_range index instruction self self' :
  cells_in_range self ->
  execute_instr index instruction self = Ok self' ->
  cells_in_range self'.
Proof.
  intros [Hlen Hall] H.
  destruct (execute_instr_Ok _ _ _ _ H) as (i & v & entry & -> & Hi & _ & Hv).
  unfold cells_in_range. cbn [written log_append set_memory memory].
  split; [rewrite length_insert; exact Hlen|].
  apply Forall_insert; [exact Hall|].
  destruct Hv as [->|[[j Hj]|[u ->]]].
  - pose proof (operand_of_range instruction). lia.
  - exact (Forall_lookup_1 _ _ _ _ Hall Hj).
  - change 0xFFFFFFFF with (Z.ones 32). rewrite Z.land_ones by lia.
    apply Z.mod_pos_bound. lia.
Qed.

Lemma execute_from_cells_in_range machine_code : forall index self,
  cells_in_range self ->
  cells_in_range (fst (execute_from index machine_code self)).
Proof.
  induction machine_code as [|instruction rest IH]; intros index self Hself;
    cbn [execute_from]; [exact Hself|].
  destruct (execute_instr index instruction self) as [self'|e] eqn:H;
    [|exact Hself].
  apply IH. exact (execute_instr_cells_in_range _ _ _ _ Hself H).
Qed.

(** C10.  From the all-zero memory of [init], after the execution of any
    prefix of any sequence of integers (completed, or stopped by a fault),
    the memory has 256 cells and each holds a value in [0, 2^32). *)
Theorem C10_cells_stay_32_bit (machine_code : list Z) (n : nat) :
  cells_in_range (fst (execute (take n machine_code) init)).
Proof. apply execute_from_cells_in_range, init_cells_in_range. Qed.

(** ** Faults (C3, C8) *)

(** Executing a concatenation: the second part runs only when the first
    completes, from the position and the object the first one leaves. *)
Lemma execute_from_app code1 code2 : forall index self,
  execute_from index (code1 ++ code2) self =
  match execute_from index code1 self with
  | (self1, None) => execute_from (index + length code1) code2 self1
  | (self1, Some e) => (self1, Some e)
  end.
Proof.
  induction code1 as [|instruction rest IH]; intros index self;
    cbn [app execute_from length].
  - now rewrite Nat.add_0_r.
  - destruct (execute_instr index instruction self) as [self'|e]; [|reflexivity].
    rewrite IH. now replace (S index + length rest)%nat
                  with (index + S (length rest))%nat by lia.
Qed.

(** A run that completes appends one trace line per instruction. *)
Lemma execute_from_completed_log machine_code : forall index self self',
  execute_from index machine_code self = (self', None) ->
  length (log self') = (length (log self) + length machine_code)%nat.
Proof.
  induction machine_code as [|instruction rest IH]; intros index self self';
    cbn [execute_from length].
  - intros [= <-]. lia.
  - destruct (execute_instr index instruction self) as [self1|e] eqn:H;
      [|discriminate].
    intros Hrest. rewrite (IH _ _ _ Hrest).
    destruct (execute_instr_Ok _ _ _ _ H) as (i & v & entry & -> & _).
    cbn [written log_append set_memory log]. rewrite length_app.
    cbn [length]. lia.
Qed.

(** A run that raises stops at some position [k]: the [k] instructions
    before it complete and give the object that the call leaves, and the
    instruction at [k] raises the exception on that object. *)
Lemma execute_from_fault machine_code : forall index self self' e,
  execute_from index machine_code self = (self', Some e) ->
  exists k instruction,
    machine_code !! k = Some instruction
    /\ execute_from index (take k machine_code) self = (self', None)
    /\ execute_instr (index + k) instruction self' = Raise e.
Proof.
  induction machine_code as [|instruction rest IH]; intros index self self' e;
    cbn [execute_from]; [discriminate|].
  destruct (execute_instr index instruction self) as [self1|e1] eqn:H.
  - intros Hrest.
    destruct (IH _ _ _ _ Hrest) as (k & instruction' & Hk & Hprefix & Hfault).
    exists (S k), instruction'. split; [exact Hk|]. split.
    + cbn [take execute_from]. rewrite H. exact Hprefix.
    + now replace (index + S k)%nat with (S index + k)%nat by lia.
  - intros [= <- <-]. exists 0%nat, instruction.
    rewrite Nat.add_0_r. repeat split. exact H.
Qed.

(** C3.  When [execute] raises, it stopped at one instruction, at some
    position [k]: the object it leaves is the one that the execution of
    exactly the [k] instructions before it produces, all of which complete;
    the instruction at [k] raises on that object and assigns nothing; the
    trace has grown by [k] lines, one per completed instruction and none
    for the faulting one; and the outcome does not depend on what follows
    position [k], which is never executed. *)
Theorem C3_halts_at_fault machine_code self self' e :
  execute machine_code self = (self', Some e) ->
  exists k instruction,
    machine_code !! k = Some instruction
    /\ execute (take k machine_code) self = (self', None)
    /\ execute_instr k instruction self' = Raise e
    /\ length (log self') = (length (log self) + k)%nat
    /\ forall later,
         execute (take k machine_code ++ instruction :: later) self
         = (self', Some e).
Proof.
  unfold execute. intros H.
  destruct (execute_from_fault _ _ _ _ _ H)
    as (k & instruction & Hk & Hprefix & Hfault).
  exists k, instruction. cbn [Nat.add] in Hfault.
  assert (length (take k machine_code) = k) as Hlen.
  { apply length_take_le. apply lookup_lt_Some in Hk. lia. }
  repeat split; try assumption.
  - rewrite (execute_from_completed_log _ _ _ _ Hprefix), Hlen. reflexivity.
  - intros later. rewrite execute_from_app, Hprefix, Hlen.
    cbn [Nat.add execute_from]. rewrite Hfault. reflexivity.
Qed.

Lemma C3_halts_at_fault_witness :
  let code := [0xA4000005; 0x1D000003; 0x9000012C; 0x4A000000] in
  let self' := fst (execute [0xA4000005; 0x1D000003] init) in
  let e := RuntimeError "LOAD_MEMORY failed: Invalid address 305." in
  exists k instruction,
    code !! k = Some instruction
    /\ execute (take k code) init = (self', None)
    /\ execute_instr k instruction self' = Raise e
    /\ length (log self') = (length (log init) + k)%nat
    /\ forall later,
         execute (take k code ++ instruction :: later) init = (self', Some e).
Proof.
  apply (C3_halts_at_fault [0xA4000005; 0x1D000003; 0x9000012C; 0x4A000000] init).
  reflexivity.
Defined.

(** C8, as stated, fails.  The exception of an invalid address is the same
    at position 0 and at position 1 of a sequence (and at any position):
    its message holds the mnemonic and the computed address, and no
    instruction index can be read off it. *)
Lemma C8_no_index_in_invalid_address :
  let e := RuntimeError "LOAD_MEMORY failed: Invalid address 300." in
  let e' := RuntimeError "STORE_TO_MEMORY failed: Invalid address 256." in
  (execute [0x9000012C] init = (init, Some e)
   /\ snd (execute [0x4A000000; 0x9000012C] init) = Some e)
  /\ (execute [0x1D000100] init = (init, Some e')
      /\ snd (execute [0x4A000000; 0x1D000100] init) = Some e')
  /\ ~ (exists carried : exn -> nat, forall index instruction self e,
          execute_instr index instruction self = Raise e ->
          opcode_of instruction = 0x90 \/ opcode_of instruction = 0x1D ->
          carried e = index).
Proof.
  cbv zeta. repeat split; try reflexivity.
  intros [carried H].
  pose proof (H 0%nat 0x9000012C init _ eq_refl (or_introl eq_refl)) as H0.
  pose proof (H 1%nat 0x9000012C init _ eq_refl (or_introl eq_refl)) as H1.
  cbv beta in H0, H1. congruence.
Qed.

(** C8, amended.  On the 256-cell memory, whenever a LOAD_MEMORY or a
    STORE_TO_MEMORY instruction faults, the computed address (cell[register]
    + operand for LOAD_MEMORY, the operand for STORE_TO_MEMORY) lies outside
    [0, 256) and the exception is the [RuntimeError] whose message is
    "<MNEMONIC> failed: Invalid address <address>.": it carries the
    mnemonic and the computed address. *)
Theorem C8_invalid_address_message index instruction self e :
  length (memory self) = 256%nat ->
  opcode_of instruction = 0x90 \/ opcode_of instruction = 0x1D ->
  execute_instr index instruction self = Raise e ->
  exists address,
    ~ (0 <= address < 256)
    /\ ((opcode_of instruction = 0x90
         /\ (exists cell,
               memory self !! Z.to_nat (reg_of instruction) = Some cell
               /\ address = cell + operand_of instruction)
         /\ e = RuntimeError ("LOAD_MEMORY failed: Invalid address "
                              ++ Py.str address ++ "."))
        \/ (opcode_of instruction = 0x1D
            /\ address = operand_of instruction
            /\ e = RuntimeError ("STORE_TO_MEMORY failed: Invalid address "
                                 ++ Py.str address ++ "."))).
Proof.
  intros Hlen Hop H.
  pose proof (reg_of_range instruction) as Hreg.
  pose proof (operand_of_range instruction) as Hopd.
  pose proof (execute_instr_outcome index instruction self) as Hout.
  rewrite H in Hout.
  inversion Hout as [| |cell H1 Hc Hr Heq| |value H1 Hc Hr Heq| |H1 H2 H3 H4 Heq
                    |Hr Heq]; subst e; clear Hout H.
  - exists (cell + operand_of instruction). split; [lia|].
    left. split; [exact H1|]. split; [|reflexivity]. eauto.
  - exists (operand_of instruction). split; [lia|].
    right. split; [exact H1|]. split; reflexivity.
  - destruct Hop; contradiction.
  - lia.
Qed.

Lemma C8_invalid_address_message_witness :
  exists address,
    ~ (0 <= address < 256)
    /\ ((opcode_of 0x9000012C = 0x90
         /\ (exists cell,
               memory init !! Z.to_nat (reg_of 0x9000012C) = Some cell
               /\ address = cell + operand_of 0x9000012C)
         /\ RuntimeError "LOAD_MEMORY failed: Invalid address 300."
            = RuntimeError ("LOAD_MEMORY failed: Invalid address "
                            ++ Py.str address ++ "."))
        \/ (opcode_of 0x9000012C = 0x1D
            /\ address = operand_of 0x9000012C
            /\ RuntimeError "LOAD_MEMORY failed: Invalid address 300."
               = RuntimeError ("STORE_TO_MEMORY failed: Invalid address "
                               ++ Py.str address ++ "."))).
Proof.
  apply (C8_invalid_address_message 4 0x9000012C init
           (RuntimeError "LOAD_MEMORY failed: Invalid address 300."));
    [reflexivity | left; reflexivity | reflexivity].
Defined.

(** ** The end-to-end example (C6) *)

(** C6.  The three-line source assembles to the words 0xA4000005,
    0x4A000000, 0x1D00000A, and their execution from the all-zero memory
    completes with 10 in cells 0 and 10 and 0 in every other cell. *)
Theorem C6_end_to_end :
  let source_code :=
    "LOAD_CONSTANT 0 5" ++ String Py.LF
      ("SHIFT_LEFT 0 0" ++ String Py.LF "STORE_TO_MEMORY 0 10") in
  let machine_code := [0xA4000005; 0x4A000000; 0x1D00000A] in
  assemble source_code
  = Ok (machine_code,
        [mkLogEntry 1 "LOAD_CONSTANT 0 5" "A4000005";
         mkLogEntry 2 "SHIFT_LEFT 0 0" "4A000000";
         mkLogEntry 3 "STORE_TO_MEMORY 0 10" "1D00000A"])
  /\ snd (execute machine_code init) = None
  /\ memory (fst (execute machine_code init))
     = <[0%nat:=10]> (<[10%nat:=10]> (replicate 256 0))
  /\ log (fst (execute machine_code init))
     = ["[0] LOAD_CONSTANT: Loaded 5 into register 0.";
        "[1] SHIFT_LEFT: Shifted value in register 0 to 10.";
        "[2] STORE_TO_MEMORY: Stored value 10 to memory[10]."].
Proof. cbv zeta. repeat split; reflexivity. Qed.

(** * Further properties of the assembler *)

(** ** What a successful assembly returns *)

(** A line that does not raise is either skipped or encoded, and the log
    record of an encoded line holds its number, its stripped text and the
    hexadecimal form of its word. *)
Lemma assemble_line_Ok_inv line_no raw r :
  assemble_line line_no raw = Ok r ->
  (r = None /\ skipped_line raw = true)
  \/ (exists word,
        r = Some (word, mkLogEntry line_no (Py.strip raw) (Py.format_08X word))
        /\ skipped_line raw = false).
Proof.
  intros H. pose proof (assemble_line_outcome line_no raw) as Hout.
  rewrite H in Hout.
  inversion Hout as [Hskip| | | | | | |command a b opcode reg value Hsplit Hop];
    subst.
  - left. split; [reflexivity|exact Hskip].
  - right. eexists. split; [reflexivity|].
    exact (mnemonic_line_not_skipped _ _ _ _ Hsplit Hop).
Qed.

Lemma assemble_lines_Ok lines : forall line_no machine_code log machine_code' log',
  assemble_lines line_no lines machine_code log = Ok (machine_code', log') ->
  exists (words : list Z) (entries : list LogEntry),
    machine_code' = (machine_code ++ words)%list
    /\ log' = (log ++ entries)%list
    /\ map binary entries = map Py.format_08X words
    /\ map instruction entries = map Py.strip (kept_lines lines)
    /\ Forall (fun entry =>
         (line_no <= line entry)%nat
         /\ exists raw, lines !! (line entry - line_no)%nat = Some raw
              /\ skipped_line raw = false
              /\ instruction entry = Py.strip raw) entries
    /\ StronglySorted lt (map line entries).
Proof.
  induction lines as [|l rest IH]; intros line_no machine_code log machine_code' log';
    cbn [assemble_lines].
  { intros [= <- <-]. exists [], []. rewrite !app_nil_r.
    repeat split; constructor. }
  destruct (assemble_line line_no l) as [r|e] eqn:Hl; cbn [mbind result_bind];
    [|discriminate].
  assert (forall entries,
    Forall (fun entry =>
         (S line_no <= line entry)%nat
         /\ exists raw, rest !! (line entry - S line_no)%nat = Some raw
              /\ skipped_line raw = false
              /\ instruction entry = Py.strip raw) entries ->
    Forall (fun entry =>
         (line_no <= line entry)%nat
         /\ exists raw, (l :: rest) !! (line entry - line_no)%nat = Some raw
              /\ skipped_line raw = false
              /\ instruction entry = Py.strip raw) entries) as Hshift.
  { intros entries Hall. eapply Forall_impl; [exact Hall|].
    intros entry (Hle & raw & Hraw & Hrest).
    split; [lia|]. exists raw. split; [|exact Hrest].
    replace (line entry - line_no)%nat with (S (line entry - S line_no)) by lia.
    exact Hraw. }
  destruct (assemble_line_Ok_inv _ _ _ Hl) as [[-> Hskip]|(word & -> & Hskip)].
  - intros H. destruct (IH _ _ _ _ _ H) as (ws & es & -> & -> & Hb & Hi & Hf & Hs).
    exists ws, es. unfold kept_lines. cbn [List.filter]. rewrite Hskip. cbn [negb].
    repeat split; auto.
  - intros H. destruct (IH _ _ _ _ _ H) as (ws & es & -> & -> & Hb & Hi & Hf & Hs).
    exists (word :: ws), (mkLogEntry line_no (Py.strip l) (Py.format_08X word) :: es).
    unfold kept_lines. cbn [List.filter]. rewrite Hskip. cbn [negb map].
    rewrite <- !app_assoc. cbn [app binary instruction line].
    split; [reflexivity|]. split; [reflexivity|].
    split; [now f_equal|]. split; [now f_equal|]. split.
    + constructor; [|now apply Hshift].
      cbn [line instruction]. split; [lia|]. exists l.
      rewrite Nat.sub_diag. repeat split. exact Hskip.
    + constructor; [exact Hs|].
      apply Forall_map. eapply Forall_impl; [exact Hf|].
      intros entry [Hle _]. cbn [line]. lia.
Qed.

(** X1.  When [assemble] returns, the words and the log records run in
    parallel: there is one record per word, the [binary] field of each
    record is the [{:08X}] form of its word, and the [instruction] fields
    are, in order, the stripped texts of exactly the lines that are
    neither blank nor comments.  Blank lines and comment lines contribute
    no word and no record. *)
Theorem assemble_words_and_log_parallel source_code machine_code log :
  assemble source_code = Ok (machine_code, log) ->
  length log = length machine_code
  /\ length machine_code = length (kept_lines (Py.splitlines source_code))
  /\ map binary log = map Py.format_08X machine_code
  /\ map instruction log = map Py.strip (kept_lines (Py.splitlines source_code)).
Proof.
  unfold assemble. intros H.
  destruct (assemble_lines_Ok _ _ _ _ _ _ H) as (ws & es & -> & -> & Hb & Hi & _).
  cbn [app].
  assert (length es = length ws) as Hlen.
  { rewrite <- (length_map binary es), Hb. apply length_map. }
  repeat split; try assumption.
  rewrite <- Hlen, <- (length_map instruction es), Hi. apply length_map.
Qed.

Lemma assemble_words_and_log_parallel_witness :
  let source_code :=
    "; setup" ++ String Py.LF ("" ++ String Py.LF "  SHIFT_LEFT 2 0  ") in
  length [mkLogEntry 3 "SHIFT_LEFT 2 0" "4A020000"] = length [0x4A020000]
  /\ length [0x4A020000] = length (kept_lines (Py.splitlines source_code))
  /\ map binary [mkLogEntry 3 "SHIFT_LEFT 2 0" "4A020000"]
     = map Py.format_08X [0x4A020000]
  /\ map instruction [mkLogEntry 3 "SHIFT_LEFT 2 0" "4A020000"]
     = map Py.strip (kept_lines (Py.splitlines source_code)).
Proof.
  apply (assemble_words_and_log_parallel
           ("; setup" ++ String Py.LF ("" ++ String Py.LF "  SHIFT_LEFT 2 0  "))).
  reflexivity.
Defined.

(** X2.  When [assemble] returns, the line numbers of the log records are
    strictly increasing, and each record points at a line of the source
    (counted from 1) that is neither blank nor a comment and whose
    stripped text is the [instruction] field of the record. *)
Theorem assemble_log_line_numbers source_code machine_code log :
  assemble source_code = Ok (machine_code, log) ->
  StronglySorted lt (map line log)
  /\ Forall (fun entry =>
       (1 <= line entry)%nat
       /\ exists raw,
            Py.splitlines source_code !! (line entry - 1)%nat = Some raw
            /\ skipped_line raw = false
            /\ instruction entry = Py.strip raw) log.
Proof.
  unfold assemble. intros H.
  destruct (assemble_lines_Ok _ _ _ _ _ _ H) as (ws & es & _ & -> & _ & _ & Hf & Hs).
  cbn [app]. split; assumption.
Qed.

Lemma assemble_log_line_numbers_witness :
  let source_code :=
    "LOAD_CONSTANT 1 2" ++ String Py.LF ("; note" ++ String Py.LF "SHIFT_LEFT 1 0") in
  let log := [mkLogEntry 1 "LOAD_CONSTANT 1 2" "A4010002";
              mkLogEntry 3 "SHIFT_LEFT 1 0" "4A010000"] in
  StronglySorted lt (map line log)
  /\ Forall (fun entry =>
       (1 <= line entry)%nat
       /\ exists raw,
            Py.splitlines source_code !! (line entry - 1)%nat = Some raw
            /\ skipped_line raw = false
            /\ instruction entry = Py.strip raw) log.
Proof.
  apply (assemble_log_line_numbers
           ("LOAD_CONSTANT 1 2" ++ String Py.LF ("; note" ++ String Py.LF "SHIFT_LEFT 1 0"))
           [0xA4010002; 0x4A010000]).
  reflexivity.
Defined.

(** * Properties of the binary file *)

Lemma be_bytes_length len n : length (be_bytes len n) = len.
Proof. induction len as [|k IH]; cbn [be_bytes length]; congruence. Qed.

Lemma be_bytes_range len n : Forall (fun b => 0 <= b < 256) (be_bytes len n).
Proof.
  induction len as [|k IH]; cbn [be_bytes]; constructor; [|exact IH].
  apply Z.mod_pos_bound. lia.
Qed.

Lemma be_value_from acc len : forall n,
  fold_left (fun acc b => 256 * acc + b) (be_bytes len n) acc
  = acc * 256 ^ Z.of_nat len + n mod 256 ^ Z.of_nat len.
Proof.
  revert acc. induction len as [|k IH]; intros acc n.
  - cbn [be_bytes fold_left]. change (256 ^ Z.of_nat 0) with 1.
    rewrite Z.mod_1_r. lia.
  - cbn [be_bytes fold_left]. rewrite IH.
    replace (Z.of_nat (S k)) with (Z.of_nat k + 1) by lia.
    rewrite Z.pow_add_r by lia. change (256 ^ 1) with 256.
    assert (0 < 256 ^ Z.of_nat k) as Hpos by (apply Z.pow_pos_nonneg; lia).
    rewrite (Z.rem_mul_r n (256 ^ Z.of_nat k) 256) by lia.
    ring.
Qed.

(** X3.  [to_bytes] succeeds exactly on the integers of [0, 256^length),
    raising the negative-integer error below and the too-big error above;
    its result has [length] bytes, each in [0, 256), and read back as a
    big-endian number it is the integer that was written. *)
Theorem to_bytes_roundtrip n len :
  match to_bytes n len with
  | inl bytes =>
      0 <= n < 256 ^ Z.of_nat len
      /\ length bytes = len
      /\ Forall (fun b => 0 <= b < 256) bytes
      /\ be_value bytes = n
  | inr cant_convert_negative => n < 0
  | inr int_too_big => 256 ^ Z.of_nat len <= n
  end.
Proof.
  unfold to_bytes.
  destruct (Z.ltb_spec n 0) as [Hneg|Hnn]; [exact Hneg|].
  destruct (Z.leb_spec (256 ^ Z.of_nat len) n) as [Hbig|Hsmall]; [exact Hbig|].
  split; [lia|]. split; [apply be_bytes_length|]. split; [apply be_bytes_range|].
  unfold be_value. rewrite be_value_from. rewrite Z.mod_small by lia. lia.
Qed.

(** X4.  The four bytes written for a word of [0, 2^32) are the fields
    that [execute] reads from it: the opcode, the register, then the high
    and the low byte of the operand. *)
Theorem to_bytes_fields word :
  0 <= word < 2 ^ 32 ->
  to_bytes word 4
  = inl [opcode_of word; reg_of word;
         operand_of word / 256; operand_of word mod 256].
Proof.
  intros Hw. unfold to_bytes.
  destruct (Z.ltb_spec word 0) as [Hneg|_]; [lia|].
  change (256 ^ Z.of_nat 4) with (2 ^ 32).
  destruct (Z.leb_spec (2 ^ 32) word) as [Hbig|_]; [lia|].
  cbn [be_bytes]. unfold opcode_of, reg_of, operand_of.
  change 0xFF with (Z.ones 8). change 0xFFFF with (Z.ones 16).
  rewrite !Z.land_ones, !Z.shiftr_div_pow2 by lia.
  change (256 ^ Z.of_nat 3) with 16777216. change (256 ^ Z.of_nat 2) with 65536.
  change (256 ^ Z.of_nat 1) with 256. change (256 ^ Z.of_nat 0) with 1.
  change (2 ^ 24) with 16777216. change (2 ^ 16) with 65536.
  change (2 ^ 8) with 256.
  replace ((word mod 65536) / 256) with ((word / 256) mod 256)
    by (Z.div_mod_to_equations; lia).
  replace ((word mod 65536) mod 256) with ((word / 1) mod 256)
    by (Z.div_mod_to_equations; lia).
  reflexivity.
Qed.

Lemma to_bytes_fields_witness :
  to_bytes 0x1D03012C 4
  = inl [opcode_of 0x1D03012C; reg_of 0x1D03012C;
         operand_of 0x1D03012C / 256; operand_of 0x1D03012C mod 256].
Proof. apply to_bytes_fields. lia. Defined.

Lemma write_binary_spec machine_code : forall written bytes r,
  write_binary machine_code written = (bytes, r) ->
  exists k,
    (k <= length machine_code)%nat
    /\ Forall (fun word => 0 <= word < 2 ^ 32) (take k machine_code)
    /\ bytes = (written ++ concat (map (be_bytes 4) (take k machine_code)))%list
    /\ match r with
       | None => k = length machine_code
       | Some e =>
           exists word,
             machine_code !! k = Some word /\ to_bytes word 4 = inr e
       end.
Proof.
  induction machine_code as [|instruction rest IH]; intros written bytes r;
    cbn [write_binary].
  { intros [= <- <-]. exists 0%nat. cbn. rewrite app_nil_r.
    repeat split; [lia|constructor]. }
  pose proof (to_bytes_roundtrip instruction 4) as Hrt.
  destruct (to_bytes instruction 4) as [bs|e] eqn:Hb.
  - intros H. destruct (IH _ _ _ H) as (k & Hk & Hall & -> & Hr).
    exists (S k). cbn [take map concat length].
    split; [lia|]. split; [constructor; [|exact Hall]|].
    { change (256 ^ Z.of_nat 4) with (2 ^ 32) in Hrt. tauto. }
    split.
    + rewrite <- app_assoc. do 2 f_equal.
      unfold to_bytes in Hb.
      destruct (instruction <? 0); [discriminate|].
      destruct (256 ^ Z.of_nat 4 <=? instruction); [discriminate|].
      congruence.
    + destruct r as [e|]; [exact Hr|lia].
  - intros [= <- <-]. exists 0%nat. cbn [take map concat length].
    rewrite app_nil_r. repeat split; [lia|constructor|].
    exists instruction. split; [reflexivity|exact Hb].
Qed.

(** X5.  The loop that writes the binary file stops at the first word
    outside [0, 2^32), leaving the bytes of the words before it; without
    such a word it writes every word.  What it has written is four bytes
    per word, in order, each group being the big-endian form of its
    word. *)
Theorem write_binary_stops_at_first_overflow machine_code bytes r :
  write_binary machine_code [] = (bytes, r) ->
  exists k,
    Forall (fun word => 0 <= word < 2 ^ 32) (take k machine_code)
    /\ bytes = concat (map (be_bytes 4) (take k machine_code))
    /\ length bytes = (4 * k)%nat
    /\ match r with
       | None => k = length machine_code
       | Some e =>
           exists word,
             machine_code !! k = Some word
             /\ ~ (0 <= word < 2 ^ 32)
             /\ e = (if word <? 0 then cant_convert_negative else int_too_big)
       end.
Proof.
  intros H.
  destruct (write_binary_spec _ _ _ _ H) as (k & Hk & Hall & -> & Hr).
  exists k. cbn [app]. split; [exact Hall|]. split; [reflexivity|]. split.
  - assert (length (take k machine_code) = k) as Hlen
        by (apply length_take_le; lia).
    revert Hlen. generalize (take k machine_code) as ws. clear.
    intros ws. revert k. induction ws as [|w ws IH]; intros k <-; [reflexivity|].
    cbn [map concat length]. rewrite length_app, be_bytes_length, (IH _ eq_refl).
    lia.
  - destruct r as [e|]; [|exact Hr].
    destruct Hr as (word & Hword & Hb). exists word. split; [exact Hword|].
    pose proof (to_bytes_roundtrip word 4) as Hrt. rewrite Hb in Hrt.
    change (256 ^ Z.of_nat 4) with (2 ^ 32) in Hrt.
    destruct e; (split; [lia|]).
    + destruct (Z.ltb_spec word 0); [reflexivity|lia].
    + destruct (Z.ltb_spec word 0); [lia|reflexivity].
Qed.

Lemma write_binary_stops_at_first_overflow_witness :
  exists k,
    Forall (fun word => 0 <= word < 2 ^ 32) (take k [0xA4000005; -1; 0x4A000000])
    /\ [164; 0; 0; 5]
       = concat (map (be_bytes 4) (take k [0xA4000005; -1; 0x4A000000]))
    /\ length [164; 0; 0; 5] = (4 * k)%nat
    /\ exists word,
         [0xA4000005; -1; 0x4A000000] !! k = Some word
         /\ ~ (0 <= word < 2 ^ 32)
         /\ cant_convert_negative
            = (if word <? 0 then cant_convert_negative else int_too_big).
Proof.
  apply (write_binary_stops_at_first_overflow
           [0xA4000005; -1; 0x4A000000] [164; 0; 0; 5] (Some cant_convert_negative)).
  reflexivity.
Defined.

Lemma words_of_be_bytes words :
  Forall (fun word => 0 <= word < 2 ^ 32) words ->
  words_of_bytes (concat (map (be_bytes 4) words)) = words.
Proof.
  induction 1 as [|word rest Hw _ IH]; [reflexivity|].
  cbn [map concat be_bytes app words_of_bytes]. f_equal; [|exact IH].
  pose proof (be_value_from 0 4 word) as Hv. cbn [be_bytes] in Hv.
  unfold be_value. rewrite Hv.
  change (256 ^ Z.of_nat 4) with (2 ^ 32). rewrite Z.mod_small by lia. lia.
Qed.

(** X21.  The binary file determines the program: when the writing loop
    completes, cutting the bytes it wrote into groups of four and reading
    each group as a big-endian number gives back the sequence of words. *)
Theorem write_binary_roundtrip machine_code bytes :
  write_binary machine_code [] = (bytes, None) ->
  words_of_bytes bytes = machine_code.
Proof.
  intros H.
  destruct (write_binary_spec _ _ _ _ H) as (k & _ & Hall & -> & ->).
  rewrite firstn_all in *. cbn [app]. now apply words_of_be_bytes.
Qed.

Lemma write_binary_roundtrip_witness :
  words_of_bytes [164; 0; 0; 5; 29; 0; 0; 10] = [0xA4000005; 0x1D00000A].
Proof. apply write_binary_roundtrip. reflexivity. Defined.

(** * The words of the assembler in the binary file *)

Lemma lor_bound a b k :
  0 <= a < 2 ^ k -> 0 <= b < 2 ^ k -> 0 <= Z.lor a b < 2 ^ k.
Proof.
  intros Ha Hb. split; [apply Z.lor_nonneg; lia|].
  destruct (Z.eq_dec a 0) as [->|Ha0]; [rewrite Z.lor_0_l; lia|].
  destruct (Z.eq_dec b 0) as [->|Hb0]; [rewrite Z.lor_0_r; lia|].
  assert (0 < Z.lor a b) as Hpos.
  { pose proof (Z.lor_nonneg a b). destruct (Z.eq_dec (Z.lor a b) 0) as [H0|]; [|lia].
    apply Z.lor_eq_0_iff in H0. lia. }
  apply Z.log2_lt_pow2; [exact Hpos|].
  rewrite Z.log2_lor by lia.
  apply Z.max_lub_lt; apply Z.log2_lt_pow2; lia.
Qed.

Lemma encode_range opcode reg value :
  0 <= opcode < 256 -> 0 <= reg < 2 ^ 16 -> 0 <= value < 2 ^ 32 ->
  0 <= encode opcode reg value < 2 ^ 32.
Proof.
  intros Ho Hr Hv. unfold encode.
  apply lor_bound; [apply lor_bound|exact Hv];
    rewrite Z.shiftl_mul_pow2 by lia; lia.
Qed.

(** X6.  A STORE_TO_MEMORY line that assembles has its register in
    [0, 32) and its address in [0, 2^24); its word lies in [0, 2^32), so
    it can be written to the binary file, and the opcode field of the word
    is 0x1D whatever the address is. *)
Theorem store_word_keeps_opcode line_no raw a b word entry :
  Py.split (Py.strip raw) = ["STORE_TO_MEMORY"; a; b] ->
  assemble_line line_no raw = Ok (Some (word, entry)) ->
  exists reg address,
    Py.int a = Some reg /\ Py.int b = Some address
    /\ 0 <= reg < 32 /\ 0 <= address < 2 ^ 24
    /\ 0 <= word < 2 ^ 32
    /\ opcode_of word = 0x1D
    /\ to_bytes word 4
       = inl [0x1D; reg_of word; operand_of word / 256; operand_of word mod 256].
Proof.
  intros Hsplit H. pose proof (assemble_line_outcome line_no raw) as Hout.
  rewrite H in Hout.
  inversion Hout as [| | | | | | |command a' b' opcode reg value Hsplit' Hop Ha Hb Hst];
    subst.
  rewrite Hsplit in Hsplit'. injection Hsplit' as <- <- <-.
  apply instructions_lookup in Hop.
  destruct Hop as [[? _]|[[? _]|[[_ ->]|[? _]]]]; try discriminate.
  destruct (Hst eq_refl) as [Hr Hv].
  exists reg, value. repeat (split; [assumption || lia|]).
  assert (0 <= encode 29 reg value < 2 ^ 32) as Hw by (apply encode_range; lia).
  assert (opcode_of (encode 29 reg value) = 29) as Hopc.
  { rewrite opcode_of_encode, (shiftr_small reg 8), (shiftr_small value 24) by lia.
    reflexivity. }
  split; [exact Hw|]. split; [exact Hopc|].
  rewrite to_bytes_fields by exact Hw. now rewrite Hopc.
Qed.

Lemma store_word_keeps_opcode_witness :
  exists reg address,
    Py.int "31" = Some reg /\ Py.int "16777215" = Some address
    /\ 0 <= reg < 32 /\ 0 <= address < 2 ^ 24
    /\ 0 <= 0x1DFFFFFF < 2 ^ 32
    /\ opcode_of 0x1DFFFFFF = 0x1D
    /\ to_bytes 0x1DFFFFFF 4
       = inl [0x1D; reg_of 0x1DFFFFFF; operand_of 0x1DFFFFFF / 256;
              operand_of 0x1DFFFFFF mod 256].
Proof.
  apply (store_word_keeps_opcode 1 "STORE_TO_MEMORY 31 16777215" "31" "16777215"
           0x1DFFFFFF (mkLogEntry 1 "STORE_TO_MEMORY 31 16777215" "1DFFFFFF"));
    reflexivity.
Defined.

(** X7.  A line whose register is in [0, 256) (in [0, 32) for
    STORE_TO_MEMORY) and whose operand is in [0, 2^16) assembles, and the
    four bytes written for its word are the opcode of the mnemonic, the
    register, and the high and low bytes of the operand. *)
Theorem in_range_line_bytes line_no raw command a b opcode reg operand :
  Py.split (Py.strip raw) = [command; a; b] ->
  instructions !! command = Some opcode ->
  Py.int a = Some reg -> Py.int b = Some operand ->
  0 <= reg < 256 -> 0 <= operand < 2 ^ 16 ->
  (command = "STORE_TO_MEMORY" -> reg < 32) ->
  exists word entry,
    assemble_line line_no raw = Ok (Some (word, entry))
    /\ 0 <= word < 2 ^ 32
    /\ to_bytes word 4 = inl [opcode; reg; operand / 256; operand mod 256].
Proof.
  intros Hsplit Hop Ha Hb Hr Hv Hst.
  assert (0 <= opcode < 256) as Ho.
  { pose proof (instructions_lookup _ _ Hop) as Hc.
    destruct Hc as [[_ ->]|[[_ ->]|[[_ ->]|[_ ->]]]]; lia. }
  exists (encode opcode reg operand),
    (mkLogEntry line_no (Py.strip raw) (Py.format_08X (encode opcode reg operand))).
  assert (0 <= encode opcode reg operand < 2 ^ 32) as Hw
      by (apply encode_range; lia).
  split; [|split; [exact Hw|]].
  - rewrite (assemble_line_operands _ _ _ _ _ _ _ _ Hsplit Hop Ha Hb).
    destruct (String.eqb_spec command "STORE_TO_MEMORY") as [Hc|_]; [|reflexivity].
    specialize (Hst Hc). change (Z.shiftl 1 24) with (2 ^ 24).
    destruct (Z.leb_spec 0 reg), (Z.ltb_spec reg 32); try lia.
    destruct (Z.leb_spec 0 operand), (Z.ltb_spec operand (2 ^ 24)); try lia.
    reflexivity.
  - rewrite to_bytes_fields by exact Hw.
    destruct (fields_of_encode opcode reg operand Ho Hr Hv) as (-> & -> & ->).
    reflexivity.
Qed.

Lemma in_range_line_bytes_witness :
  exists word entry,
    assemble_line 1 "LOAD_MEMORY 200 513" = Ok (Some (word, entry))
    /\ 0 <= word < 2 ^ 32
    /\ to_bytes word 4 = inl [0x90; 200; 513 / 256; 513 mod 256].
Proof.
  apply (in_range_line_bytes 1 "LOAD_MEMORY 200 513" "LOAD_MEMORY" "200" "513"
           0x90 200 513);
    [reflexivity | reflexivity | reflexivity | reflexivity | lia | lia
    | discriminate].
Defined.

(** X8.  A LOAD_CONSTANT, LOAD_MEMORY or SHIFT_LEFT line with a negative
    register or a negative operand assembles, to a negative word, and the
    binary writer rejects that word as a negative integer. *)
Theorem negative_operand_word_not_writable
    line_no raw command a b opcode reg operand :
  Py.split (Py.strip raw) = [command; a; b] ->
  command = "LOAD_CONSTANT" \/ command = "LOAD_MEMORY" \/ command = "SHIFT_LEFT" ->
  instructions !! command = Some opcode ->
  Py.int a = Some reg -> Py.int b = Some operand ->
  reg < 0 \/ operand < 0 ->
  exists word entry,
    assemble_line line_no raw = Ok (Some (word, entry))
    /\ word < 0
    /\ to_bytes word 4 = inr cant_convert_negative.
Proof.
  intros Hsplit Hcmd Hop Ha Hb Hneg.
  exists (encode opcode reg operand),
    (mkLogEntry line_no (Py.strip raw) (Py.format_08X (encode opcode reg operand))).
  assert (encode opcode reg operand < 0) as Hw.
  { unfold encode. rewrite !Z.lor_neg, !Z.shiftl_neg. tauto. }
  split; [|split; [exact Hw|]].
  - rewrite (assemble_line_operands _ _ _ _ _ _ _ _ Hsplit Hop Ha Hb).
    destruct Hcmd as [-> | [-> | ->]]; reflexivity.
  - unfold to_bytes. destruct (Z.ltb_spec (encode opcode reg operand) 0); [reflexivity|lia].
Qed.

Lemma negative_operand_word_not_writable_witness :
  exists word entry,
    assemble_line 1 "SHIFT_LEFT -2 0" = Ok (Some (word, entry))
    /\ word < 0
    /\ to_bytes word 4 = inr cant_convert_negative.
Proof.
  apply (negative_operand_word_not_writable 1 "SHIFT_LEFT -2 0" "SHIFT_LEFT"
           "-2" "0" 0x4A (-2) 0);
    [reflexivity | right; right; reflexivity | reflexivity | reflexivity
    | reflexivity | left; lia].
Defined.

(** * Further properties of the interpreter *)

(** ** What [execute] never touches *)

Lemma execute_from_frame machine_code : forall index self,
  let self' := fst (execute_from index machine_code self) in
  stack self' = stack self
  /\ length (memory self') = length (memory self)
  /\ exists lines, log self' = (log self ++ lines)%list.
Proof.
  induction machine_code as [|instruction rest IH]; intros index self;
    cbn [execute_from].
  { cbn. repeat split. exists []. now rewrite app_nil_r. }
  destruct (execute_instr index instruction self) as [self1|e] eqn:H.
  - destruct (execute_instr_Ok _ _ _ _ H) as (i & v & entry & -> & _).
    destruct (IH (S index) (written self i v entry)) as (Hs & Hm & lines & Hl).
    cbv zeta. rewrite Hs, Hm, Hl.
    cbn [written log_append set_memory stack memory log].
    rewrite length_insert. repeat split.
    exists (entry :: lines). now rewrite <- app_assoc.
  - cbn. repeat split. exists []. now rewrite app_nil_r.
Qed.

(** X9.  Whatever the words and whether or not it raises, [execute] leaves
    the stack as it was, keeps the number of memory cells, and only appends
    to the trace: the lines that were there are still there, first. *)
Theorem execute_keeps_stack_size_and_trace machine_code self :
  let self' := fst (execute machine_code self) in
  stack self' = stack self
  /\ length (memory self') = length (memory self)
  /\ exists lines, log self' = (log self ++ lines)%list.
Proof. apply execute_from_frame. Qed.

(** ** The exceptions of [execute] *)

(** X10.  On a 256-cell memory [execute] never raises [IndexError]: when it
    raises, it stopped at some position [k], the [k] words before it having
    completed and given the object that the call leaves, and the word at
    [k] is a LOAD_MEMORY whose address, the register cell of that object
    plus the operand, is outside [0, 256) and is named by the message; a
    STORE_TO_MEMORY whose operand is 256 or more and is named by the
    message; or a word whose opcode is none of the four, and in that last
    case the message names the opcode and the position [k]. *)
Theorem execute_raises_only_runtime_errors machine_code self self' e :
  length (memory self) = 256%nat ->
  execute machine_code self = (self', Some e) ->
  exists k word,
    machine_code !! k = Some word
    /\ execute (take k machine_code) self = (self', None)
    /\ execute_instr k word self' = Raise e
    /\ ((opcode_of word = 0x90
         /\ exists cell,
              memory self' !! Z.to_nat (reg_of word) = Some cell
              /\ ~ (0 <= cell + operand_of word < 256)
              /\ e = RuntimeError ("LOAD_MEMORY failed: Invalid address "
                                   ++ Py.str (cell + operand_of word) ++ "."))
        \/ (opcode_of word = 0x1D
            /\ 256 <= operand_of word
            /\ e = RuntimeError ("STORE_TO_MEMORY failed: Invalid address "
                                 ++ Py.str (operand_of word) ++ "."))
        \/ (opcode_of word <> 0xA4 /\ opcode_of word <> 0x90
            /\ opcode_of word <> 0x1D /\ opcode_of word <> 0x4A
            /\ e = RuntimeError ("Unknown opcode " ++ Py.str (opcode_of word)
                                 ++ " at index " ++ Py.str (Z.of_nat k) ++ "."))).
Proof.
  unfold execute. intros Hlen H.
  destruct (execute_from_fault _ _ _ _ _ H) as (k & word & Hk & Hprefix & Hfault).
  cbn [Nat.add] in Hfault.
  assert (length (memory self') = 256%nat) as Hlen'.
  { pose proof (execute_from_frame (take k machine_code) 0 self) as Hf.
    rewrite Hprefix in Hf. cbn [fst] in Hf. destruct Hf as (_ & Hm & _). congruence. }
  exists k, word. split; [exact Hk|]. split; [exact Hprefix|].
  split; [exact Hfault|].
  pose proof (reg_of_range word) as Hreg.
  pose proof (operand_of_range word) as Hopd.
  pose proof (execute_instr_outcome k word self') as Hout.
  rewrite Hfault in Hout.
  inversion Hout as [| |cell H1 Hc Hr Heq| |value H1 Hc Hr Heq| |H1 H2 H3 H4 Heq
                    |Hr Heq]; subst e.
  - left. split; [exact H1|]. exists cell.
    split; [exact Hc|]. split; [lia|reflexivity].
  - right; left. split; [exact H1|]. split; [lia|reflexivity].
  - right; right. repeat (split; [assumption|]). reflexivity.
  - lia.
Qed.

Lemma execute_raises_only_runtime_errors_witness :
  exists k word,
    [0x90000000; 0x9000012C; 0x07000000] !! k = Some word
    /\ execute (take k [0x90000000; 0x9000012C; 0x07000000]) init
       = (fst (execute [0x90000000] init), None)
    /\ execute_instr k word (fst (execute [0x90000000] init))
       = Raise (RuntimeError "LOAD_MEMORY failed: Invalid address 300.").
Proof.
  destruct (execute_raises_only_runtime_errors
              [0x90000000; 0x9000012C; 0x07000000] init
              (fst (execute [0x90000000] init))
              (RuntimeError "LOAD_MEMORY failed: Invalid address 300.")
              eq_refl eq_refl)
    as (k & word & Hk & Hprefix & Hfault & _).
  exists k, word. split; [exact Hk|]. split; [exact Hprefix|exact Hfault].
Defined.

(** ** Sequences of instructions *)

(** The position of an instruction and the trace collected so far have no
    influence on what the instruction does to the memory, nor on whether
    it raises. *)
Lemma execute_instr_memory_only i j word self1 self2 :
  memory self1 = memory self2 ->
  match execute_instr i word self1, execute_instr j word self2 with
  | Ok a, Ok b => memory a = memory b
  | Raise _, Raise _ => True
  | _, _ => False
  end.
Proof.
  intros Hm.
  pose proof (reg_of_range word) as Hreg.
  pose proof (operand_of_range word) as Hopd.
  destruct (execute_instr_outcome i word self1);
    destruct (execute_instr_outcome j word self2);
    unfold cell_at in *; rewrite ?Hm in *;
    try exact I; try congruence; try lia;
    cbn [written log_append set_memory memory]; rewrite ?Hm; try congruence.
  all: repeat match goal with
              | H : _ !! _ = Some _ |- _ => apply lookup_lt_Some in H
              end; lia.
Qed.

Lemma execute_from_memory_only machine_code : forall i j self1 self2,
  memory self1 = memory self2 ->
  memory (fst (execute_from i machine_code self1))
  = memory (fst (execute_from j machine_code self2))
  /\ (snd (execute_from i machine_code self1) = None
      <-> snd (execute_from j machine_code self2) = None).
Proof.
  induction machine_code as [|word rest IH]; intros i j self1 self2 Hm;
    cbn [execute_from]; [cbn; tauto|].
  pose proof (execute_instr_memory_only i j word self1 self2 Hm) as Hstep.
  destruct (execute_instr i word self1) as [a|e1],
           (execute_instr j word self2) as [b|e2]; try contradiction.
  - apply IH. exact Hstep.
  - cbn. split; [exact Hm|]. split; discriminate.
Qed.

(** X11.  Running a sequence that is the concatenation of two: when the
    first part raises, the whole call is that of the first part alone;
    when it completes, the memory at the end is the one that the second
    part gives when run, by a call of its own, on the object the first
    part left, and the whole completes exactly when that second call
    does. *)
Theorem execute_concatenation code1 code2 self :
  match execute code1 self with
  | (self1, Some e) => execute (code1 ++ code2) self = (self1, Some e)
  | (self1, None) =>
      memory (fst (execute (code1 ++ code2) self))
      = memory (fst (execute code2 self1))
      /\ (snd (execute (code1 ++ code2) self) = None
          <-> snd (execute code2 self1) = None)
  end.
Proof.
  unfold execute. rewrite execute_from_app.
  destruct (execute_from 0 code1 self) as [self1 [e|]]; [reflexivity|].
  now apply execute_from_memory_only.
Qed.

(** ** Which bits of a word matter *)

Lemma fields_mod_2_32 word :
  opcode_of (word mod 2 ^ 32) = opcode_of word
  /\ reg_of (word mod 2 ^ 32) = reg_of word
  /\ operand_of (word mod 2 ^ 32) = operand_of word.
Proof.
  unfold opcode_of, reg_of, operand_of.
  rewrite <- (Z.land_ones word 32) by lia.
  rewrite !Z.shiftr_land.
  change (Z.shiftr (Z.ones 32) 24) with (Z.ones 8).
  change (Z.shiftr (Z.ones 32) 16) with (Z.ones 16).
  change 0xFF with (Z.ones 8). change 0xFFFF with (Z.ones 16).
  rewrite <- !Z.land_assoc.
  change (Z.land (Z.ones 8) (Z.ones 8)) with (Z.ones 8).
  change (Z.land (Z.ones 16) (Z.ones 8)) with (Z.ones 8).
  change (Z.land (Z.ones 32) (Z.ones 16)) with (Z.ones 16).
  tauto.
Qed.

Lemma execute_instr_mod_2_32 index word self :
  execute_instr index (word mod 2 ^ 32) self = execute_instr index word self.
Proof.
  unfold execute_instr.
  destruct (fields_mod_2_32 word) as (-> & -> & ->). reflexivity.
Qed.

(** X12.  [execute] reads only the low 32 bits of each word: replacing
    every word by its residue modulo 2^32 (so a negative word by its
    two's complement) changes nothing, neither the memory, nor the trace,
    nor the exception. *)
Theorem execute_reads_low_32_bits machine_code self :
  execute (map (fun word => word mod 2 ^ 32) machine_code) self
  = execute machine_code self.
Proof.
  unfold execute. generalize 0%nat as index. revert self.
  induction machine_code as [|word rest IH]; intros self index;
    cbn [map execute_from]; [reflexivity|].
  rewrite execute_instr_mod_2_32.
  destruct (execute_instr index word self); [apply IH|reflexivity].
Qed.

(** X13.  A SHIFT_LEFT instruction does not read its operand field: two
    SHIFT_LEFT words with the same register field do the same, trace line
    included. *)
Theorem shift_left_ignores_operand index word1 word2 self :
  opcode_of word1 = 0x4A -> opcode_of word2 = 0x4A ->
  reg_of word1 = reg_of word2 ->
  execute_instr index word1 self = execute_instr index word2 self.
Proof.
  intros H1 H2 Hreg. unfold execute_instr. rewrite H1, H2, Hreg. reflexivity.
Qed.

Lemma shift_left_ignores_operand_witness :
  execute_instr 2 0x4A050000 init = execute_instr 2 0x4A05FFFF init.
Proof. apply shift_left_ignores_operand; reflexivity. Defined.

(** ** What each memory instruction does *)

(** X14.  STORE_TO_MEMORY on a 256-cell memory: the operand is the
    address, the contents of the register are the value and never part of
    the address.  With an operand below 256 the instruction completes and
    copies the register cell into the cell of that address; with an
    operand of 256 or more it raises and names the operand. *)
Theorem store_to_memory_semantics index word self :
  length (memory self) = 256%nat ->
  opcode_of word = 0x1D ->
  exists value,
    memory self !! Z.to_nat (reg_of word) = Some value
    /\ (operand_of word < 256 ->
        execute_instr index word self
        = Ok (written self (operand_of word) value
                (trace_store_to_memory index value (operand_of word))))
    /\ (256 <= operand_of word ->
        execute_instr index word self
        = Raise (RuntimeError (msg_store_to_memory_failed (operand_of word)))).
Proof.
  intros Hlen Hop.
  pose proof (reg_of_range word) as Hreg.
  destruct (lookup_lt_is_Some_2 (memory self) (Z.to_nat (reg_of word)))
    as [value Hvalue]; [lia|].
  exists value. split; [exact Hvalue|].
  destruct (execute_instr_outcome index word self) as
    [H1|c v H1|c H1|v H1 Hc Hr|v H1 Hc Hr|v H1|H1 H2 H3 H4|Hr];
    try congruence; try lia; unfold cell_at in *.
  - replace v with value by congruence. split; [reflexivity|lia].
  - replace v with value by congruence. split; [lia|reflexivity].
Qed.

Lemma store_to_memory_semantics_witness :
  exists value,
    memory init !! Z.to_nat (reg_of 0x1D0300FF) = Some value
    /\ (operand_of 0x1D0300FF < 256 ->
        execute_instr 0 0x1D0300FF init
        = Ok (written init (operand_of 0x1D0300FF) value
                (trace_store_to_memory 0 value (operand_of 0x1D0300FF))))
    /\ (256 <= operand_of 0x1D0300FF ->
        execute_instr 0 0x1D0300FF init
        = Raise (RuntimeError (msg_store_to_memory_failed (operand_of 0x1D0300FF)))).
Proof. apply (store_to_memory_semantics 0 0x1D0300FF init); reflexivity. Defined.

(** X15.  LOAD_MEMORY on a memory of 256 cells that hold unsigned 32-bit
    values: the address is the contents of the register cell plus the
    operand, and it is never negative.  Below 256 the instruction
    completes and copies the cell of that address into the register cell;
    from 256 on it raises and names the address. *)
Theorem load_memory_semantics index word self :
  cells_in_range self ->
  opcode_of word = 0x90 ->
  exists cell,
    memory self !! Z.to_nat (reg_of word) = Some cell
    /\ 0 <= cell + operand_of word
    /\ (cell + operand_of word < 256 ->
        exists value,
          memory self !! Z.to_nat (cell + operand_of word) = Some value
          /\ execute_instr index word self
             = Ok (written self (reg_of word) value
                     (trace_load_memory index value (cell + operand_of word)
                        (reg_of word))))
    /\ (256 <= cell + operand_of word ->
        execute_instr index word self
        = Raise (RuntimeError (msg_load_memory_failed (cell + operand_of word)))).
Proof.
  intros [Hlen Hall] Hop.
  pose proof (reg_of_range word) as Hreg.
  pose proof (operand_of_range word) as Hopd.
  destruct (lookup_lt_is_Some_2 (memory self) (Z.to_nat (reg_of word)))
    as [cell Hcell]; [lia|].
  pose proof (Forall_lookup_1 _ _ _ _ Hall Hcell) as Hrange. cbv beta in Hrange.
  exists cell. split; [exact Hcell|]. split; [lia|].
  destruct (execute_instr_outcome index word self) as
    [H1|c v H1 Hc Hr Hv|c H1 Hc Hr|v H1|v H1|v H1|H1 H2 H3 H4|Hr];
    try congruence; try lia; unfold cell_at in *.
  - replace c with cell in * by congruence. split; [|lia].
    intros _. exists v. split; [exact Hv|reflexivity].
  - replace c with cell in * by congruence. split; [lia|reflexivity].
Qed.

Lemma load_memory_semantics_witness :
  exists cell,
    memory init !! Z.to_nat (reg_of 0x90020005) = Some cell
    /\ 0 <= cell + operand_of 0x90020005
    /\ (cell + operand_of 0x90020005 < 256 ->
        exists value,
          memory init !! Z.to_nat (cell + operand_of 0x90020005) = Some value
          /\ execute_instr 1 0x90020005 init
             = Ok (written init (reg_of 0x90020005) value
                     (trace_load_memory 1 value (cell + operand_of 0x90020005)
                        (reg_of 0x90020005))))
    /\ (256 <= cell + operand_of 0x90020005 ->
        execute_instr 1 0x90020005 init
        = Raise (RuntimeError
                   (msg_load_memory_failed (cell + operand_of 0x90020005)))).
Proof.
  apply (load_memory_semantics 1 0x90020005 init);
    [exact init_cells_in_range | reflexivity].
Defined.

(** X16.  From source to memory: a line [LOAD_CONSTANT r v] with r in
    [0, 256) and v in [0, 2^16) assembles to a word whose execution on a
    256-cell memory completes and leaves v in cell r, every other cell
    being as before. *)
Theorem load_constant_line_executes line_no raw a b reg value index self :
  Py.split (Py.strip raw) = ["LOAD_CONSTANT"; a; b] ->
  Py.int a = Some reg -> Py.int b = Some value ->
  0 <= reg < 256 -> 0 <= value < 2 ^ 16 ->
  length (memory self) = 256%nat ->
  exists word entry self',
    assemble_line line_no raw = Ok (Some (word, entry))
    /\ execute_instr index word self = Ok self'
    /\ memory self' = <[Z.to_nat reg := value]> (memory self)
    /\ memory self' !! Z.to_nat reg = Some value.
Proof.
  intros Hsplit Ha Hb Hr Hv Hlen.
  pose proof (assemble_line_operands line_no _ _ _ _ 0xA4 _ _ Hsplit eq_refl Ha Hb)
    as Hasm.
  cbn [String.eqb Ascii.eqb Bool.eqb] in Hasm.
  destruct (fields_of_encode 0xA4 reg value ltac:(lia) Hr Hv) as (Ho & Hreg & Hopd).
  do 2 eexists. exists (written self reg value (trace_load_constant index value reg)).
  split; [exact Hasm|].
  destruct (execute_instr_outcome index (encode 0xA4 reg value) self) as
    [H1 Hin|c v H1|c H1|v H1|v H1|v H1|H1 H2 H3 H4|Hout];
    try congruence; try lia.
  rewrite Hreg, Hopd. split; [reflexivity|].
  cbn [written log_append set_memory memory]. split; [reflexivity|].
  apply list_lookup_insert_eq. lia.
Qed.

Lemma load_constant_line_executes_witness :
  exists word entry self',
    assemble_line 1 "LOAD_CONSTANT 255 65535" = Ok (Some (word, entry))
    /\ execute_instr 0 word init = Ok self'
    /\ memory self' = <[Z.to_nat 255 := 65535]> (memory init)
    /\ memory self' !! Z.to_nat 255 = Some 65535.
Proof.
  apply (load_constant_line_executes 1 "LOAD_CONSTANT 255 65535" "255" "65535"
           255 65535 0 init);
    [reflexivity | reflexivity | reflexivity | lia | lia | reflexivity].
Defined.

(** * The memory dump *)

(** The decimal form of an integer determines the integer. *)
Lemma str_inj a b : Py.str a = Py.str b -> a = b.
Proof.
  unfold Py.str. intros H.
  assert (forall z, NilZero.int_of_string (NilZero.string_of_int (Z.to_int z))
                    = Some (Z.to_int z)) as Hparse.
  { intros z. apply NilZero.isi; destruct z as [|p|p]; cbn; try discriminate;
      intros [= Hnil]; exact (Unsigned.to_uint_nonnil p Hnil). }
  apply (f_equal NilZero.int_of_string) in H. rewrite !Hparse in H.
  injection H as H. exact (DecimalZ.to_int_inj _ _ H).
Qed.

Lemma dump_key_inj i j : dump_key i = dump_key j -> i = j.
Proof.
  unfold dump_key. cbn [String.append]. intros [= H].
  apply str_inj in H. lia.
Qed.

Lemma memory_dump_from_lookup cells : forall i dump k,
  memory_dump_from i cells dump !! dump_key k
  = if decide (i <= k < i + length cells)%nat
    then cells !! (k - i)%nat else dump !! dump_key k.
Proof.
  induction cells as [|value rest IH]; intros i dump k; cbn [memory_dump_from length].
  { destruct (decide (i <= k < i + 0)%nat); [lia|reflexivity]. }
  fold (dump_key i). rewrite IH.
  destruct (decide (S i <= k < S i + length rest)%nat) as [Hin|Hout].
  - destruct (decide (i <= k < i + S (length rest))%nat); [|lia].
    replace (k - i)%nat with (S (k - S i)) by lia. reflexivity.
  - destruct (decide (k = i)) as [->|Hne].
    + rewrite lookup_insert_eq, Nat.sub_diag.
      destruct (decide (i <= i < i + S (length rest))%nat); [reflexivity|lia].
    + rewrite lookup_insert_ne by (intros Heq; apply dump_key_inj in Heq; lia).
      destruct (decide (i <= k < i + S (length rest))%nat); [lia|reflexivity].
Qed.

Lemma memory_dump_from_keys cells : forall i dump key v,
  memory_dump_from i cells dump !! key = Some v ->
  dump !! key = Some v
  \/ exists k, key = dump_key k /\ (i <= k)%nat /\ cells !! (k - i)%nat = Some v.
Proof.
  induction cells as [|value rest IH]; intros i dump key v; cbn [memory_dump_from];
    [tauto|].
  fold (dump_key i). intros H.
  destruct (IH _ _ _ _ H) as [Hd|(k & -> & Hk & Hv)].
  - destruct (decide (dump_key i = key)) as [<-|Hne].
    + rewrite lookup_insert_eq in Hd. injection Hd as ->.
      right. exists i. rewrite Nat.sub_diag. repeat split. lia.
    + rewrite lookup_insert_ne in Hd by exact Hne. now left.
  - right. exists k. split; [reflexivity|]. split; [lia|].
    replace (k - i)%nat with (S (k - S i)) by lia. exact Hv.
Qed.

Lemma memory_dump_from_size cells : forall i dump,
  (forall k, (i <= k)%nat -> dump !! dump_key k = None) ->
  size (memory_dump_from i cells dump) = (size dump + length cells)%nat.
Proof.
  induction cells as [|value rest IH]; intros i dump Hfresh;
    cbn [memory_dump_from length]; [lia|].
  fold (dump_key i). rewrite IH.
  - rewrite map_size_insert_None by (apply Hfresh; lia). lia.
  - intros k Hk.
    rewrite lookup_insert_ne by (intros Heq; apply dump_key_inj in Heq; lia).
    apply Hfresh. lia.
Qed.

(** X17.  The dump maps the key "address_i" to cell i, for every cell of
    the memory and for nothing else: looking up "address_i" gives what the
    memory holds at i (nothing beyond its last cell), and every key of the
    dump is the key of a cell and carries the value of that cell. *)
Theorem get_memory_dump_lookup self :
  (forall i : nat,
     get_memory_dump self !! ("address_" ++ Py.str (Z.of_nat i)) = memory self !! i)
  /\ (forall key v,
        get_memory_dump self !! key = Some v ->
        exists i : nat,
          key = "address_" ++ Py.str (Z.of_nat i) /\ memory self !! i = Some v).
Proof.
  unfold get_memory_dump. split.
  - intros i. fold (dump_key i). rewrite memory_dump_from_lookup, Nat.sub_0_r.
    destruct (decide (0 <= i < 0 + length (memory self))%nat) as [_|Hout];
      [reflexivity|].
    rewrite lookup_empty. symmetry. apply lookup_ge_None. lia.
  - intros key v H.
    destruct (memory_dump_from_keys _ _ _ _ _ H) as [Hd|(k & -> & _ & Hv)].
    + rewrite lookup_empty in Hd. discriminate.
    + exists k. rewrite Nat.sub_0_r in Hv. split; [reflexivity|exact Hv].
Qed.

(** X18.  The dump has one entry per memory cell: no two cells share a
    key, so no entry of the comprehension replaces another. *)
Theorem get_memory_dump_size self :
  size (get_memory_dump self) = length (memory self).
Proof.
  unfold get_memory_dump. rewrite memory_dump_from_size.
  - rewrite map_size_empty. lia.
  - intros k _. apply lookup_empty.
Qed.

(** * The layout of a source line and of a log record *)

Lemma string_length_app s1 s2 :
  String.length (s1 ++ s2) = (String.length s1 + String.length s2)%nat.
Proof.
  induction s1 as [|c s1 IH]; [reflexivity|].
  change (String c s1 ++ s2) with (String c (s1 ++ s2)).
  cbn [String.length Nat.add]. now rewrite IH.
Qed.

Lemma zeros_length k : String.length (Py.zeros k) = k.
Proof.
  induction k as [|k IH]; [reflexivity|].
  cbn [Py.zeros String.length]. now rewrite IH.
Qed.

Lemma hex_from_length fuel : forall n acc k,
  0 <= n < 16 ^ Z.of_nat (S k) ->
  (String.length (Py.hex_from fuel n acc) <= String.length acc + S k)%nat.
Proof.
  induction fuel as [|fuel IH]; intros n acc k Hn; cbn [Py.hex_from]; [lia|].
  destruct (Z.eqb_spec (n / 16) 0) as [Hz|Hnz]; [cbn [String.length]; lia|].
  destruct k as [|k].
  { change (16 ^ Z.of_nat 1) with 16 in Hn.
    rewrite Z.div_small in Hnz by lia. contradiction. }
  etransitivity; [apply (IH _ _ k)|cbn [String.length]; lia].
  replace (Z.of_nat (S (S k))) with (Z.of_nat (S k) + 1) in Hn by lia.
  rewrite Z.pow_add_r in Hn by lia. change (16 ^ 1) with 16 in Hn.
  assert (0 < 16 ^ Z.of_nat (S k)) by (apply Z.pow_pos_nonneg; lia).
  split; [apply Z.div_pos; lia|apply Z.div_lt_upper_bound; lia].
Qed.

(** X19.  The [binary] field that [assemble] writes for a word of
    [0, 2^32) has exactly eight characters. *)
Theorem format_08X_length word :
  0 <= word < 2 ^ 32 -> String.length (Py.format_08X word) = 8%nat.
Proof.
  intros Hw. unfold Py.format_08X.
  destruct (Z.ltb_spec word 0) as [Hneg|_]; [lia|].
  rewrite string_length_app, zeros_length.
  pose proof (hex_from_length (S (Z.to_nat (Z.log2 word))) word "" 7 Hw) as Hlen.
  fold (Py.hex word) in Hlen. cbn [String.length] in Hlen. lia.
Qed.

Lemma format_08X_length_witness : String.length (Py.format_08X 0x4A000000) = 8%nat.
Proof. apply format_08X_length. lia. Defined.

(** The skip test of the loop, read on the tokens of the line: a line is
    skipped when it has no token or when its first token starts with a
    semicolon. *)
Lemma skipped_line_tokens raw :
  skipped_line raw
  = match Py.split (Py.strip raw) with
    | [] => true
    | command :: _ => Py.startswith ";" command
    end.
Proof.
  unfold skipped_line.
  destruct (Py.strip raw) as [|c s] eqn:Hstrip; [reflexivity|].
  destruct (split_nonempty c s (strip_head _ _ _ Hstrip)) as (t & ts & ->).
  unfold Py.startswith.
  change (String.prefix ";" (String c s))
    with (if ascii_dec ";"%char c then String.prefix "" s else false).
  change (String.prefix ";" (String c t))
    with (if ascii_dec ";"%char c then String.prefix "" t else false).
  destruct (ascii_dec ";"%char c); [destruct s, t|]; reflexivity.
Qed.

Lemma split_lstrip s : Py.split (Py.lstrip s) = Py.split s.
Proof.
  induction s as [|c s IH]; [reflexivity|].
  cbn [Py.lstrip Py.split]. destruct (Py.isspace c) eqn:Hc; [exact IH|].
  cbn [Py.split]. now rewrite Hc.
Qed.

Lemma starts_token_rstrip s : Py.starts_token (Py.rstrip s) = Py.starts_token s.
Proof.
  destruct s as [|c s]; [reflexivity|]. cbn [Py.rstrip Py.starts_token].
  destruct (String.eqb (Py.rstrip s) "" && Py.isspace c) eqn:H; [|reflexivity].
  apply andb_prop in H as [_ ->]. reflexivity.
Qed.

Lemma split_rstrip s : Py.split (Py.rstrip s) = Py.split s.
Proof.
  induction s as [|c s IH]; [reflexivity|]. cbn [Py.rstrip].
  destruct (String.eqb_spec (Py.rstrip s) "") as [Hr|Hr]; cbn [andb].
  - destruct (Py.isspace c) eqn:Hc.
    + cbn [Py.split]. rewrite Hc, <- IH, Hr. reflexivity.
    + cbn [Py.split]. now rewrite Hc, starts_token_rstrip, IH.
  - cbn [Py.split]. now rewrite starts_token_rstrip, IH.
Qed.

(** The tokens of a line are those of its stripped text. *)
Lemma split_strip s : Py.split (Py.strip s) = Py.split s.
Proof. unfold Py.strip. now rewrite split_rstrip, split_lstrip. Qed.

(** X20.  Only the tokens of a line count: two lines with the same tokens,
    however the white space around and between them differs, are both
    skipped, or give the same word, or raise the same exception (on the
    same line number). *)
Theorem assemble_line_depends_on_tokens line_no raw1 raw2 :
  Py.split raw1 = Py.split raw2 ->
  match assemble_line line_no raw1, assemble_line line_no raw2 with
  | Ok None, Ok None => True
  | Ok (Some (word1, _)), Ok (Some (word2, _)) => word1 = word2
  | Raise e1, Raise e2 => e1 = e2
  | _, _ => False
  end.
Proof.
  intros Htok. rewrite <- (split_strip raw1), <- (split_strip raw2) in Htok.
  assert (skipped_line raw1 = skipped_line raw2) as Hskip
      by (rewrite !skipped_line_tokens, Htok; reflexivity).
  unfold skipped_line in Hskip. unfold assemble_line.
  rewrite <- Htok, <- Hskip.
  destruct (String.eqb (Py.strip raw1) "" || Py.startswith ";" (Py.strip raw1));
    [exact I|].
  destruct (getitem (Py.split (Py.strip raw1)) 0) as [command|e];
    cbn [mbind result_bind]; [|reflexivity].
  destruct (instructions !! command) as [opcode|]; [|reflexivity].
  repeat match goal with
         | |- context [if ?c then _ else _] => destruct c
         | |- context [operands ?c ?n ?p] =>
             destruct (operands c n p) as [[? ?]|?]; cbn [mbind result_bind fst snd]
         | |- context [int_of ?t] =>
             destruct (int_of t); cbn [mbind result_bind]
         end; reflexivity.
Qed.

Lemma assemble_line_depends_on_tokens_witness :
  match assemble_line 4 "LOAD_CONSTANT 1 2", assemble_line 4 "  LOAD_CONSTANT  1  2 " with
  | Ok None, Ok None => True
  | Ok (Some (word1, _)), Ok (Some (word2, _)) => word1 = word2
  | Raise e1, Raise e2 => e1 = e2
  | _, _ => False
  end.
Proof. apply assemble_line_depends_on_tokens. reflexivity. Defined.
